(** * Daily agenda generator (src/v0.001.py): shallow embedding and properties

    The script draws one PDF page per day from a start date to 31 December
    of the same year.  The embedding follows the script function by
    function.  What the script borrows from its runtime is modelled in the
    first part of the file:

    - Python [int] is [Z]; Python [float] is an exact rational ([Q]), so
      rounding is not part of the model, but the conversion of an [int]
      to a [float] fails outside the range of the floats, as it does in
      Python;
    - [datetime.date] is a record of year, month and day with the
      proleptic Gregorian ordinal of CPython's [Lib/_pydatetime.py];
    - the reportlab canvas is a recorder of the drawing calls it receives;
      writing the file and printing are done by the host and can fail;
    - [while] loops take fuel: running out of fuel stands for a run that
      is still looping. *)

From Stdlib Require Import ZArith QArith Qround Lqa List String Ascii Bool Lia.
From Stdlib Require Import DecimalString.
From Stdlib Require DecimalZ DecimalPos.
Import ListNotations.

Local Open Scope string_scope.
Local Open Scope Z_scope.

(** ** Python runtime *)

(** The exceptions that occur in the script; every one of them derives
    from Python's [Exception]. *)
Inductive exn : Type :=
| IndexError
| ValueError
| OverflowError
| KeyError
| OSError
| TTFError
| ZoneInfoNotFoundError.

(** The outcome of a call: a value, a raised exception, or a run that has
    used all its fuel. *)
Inductive outcome (A : Type) : Type :=
| Ok (a : A)
| Raise (e : exn)
| OutOfFuel.

Arguments Ok {A} a.
Arguments Raise {A} e.
Arguments OutOfFuel {A}.

(** [l[i]] on a Python list: a negative index counts from the end, and an
    index outside [-len, len) raises [IndexError]. *)
Definition py_index {A : Type} (l : list A) (i : Z) : outcome A :=
  let n := Z.of_nat (List.length l) in
  let j := if i <? 0 then i + n else i in
  if (0 <=? j) && (j <? n) then
    match nth_error l (Z.to_nat j) with
    | Some a => Ok a
    | None => Raise IndexError
    end
  else Raise IndexError.

(** [str(n)] and [f"{n}"] for an [int]. *)
Definition py_str (n : Z) : string := NilZero.string_of_int (Z.to_int n).

(** The first integer above the floats: an [int] of this size or more
    rounds up past the largest double, 2^1024 - 2^971. *)
Definition float_max_int : Z := 2 ^ 1024 - 2 ^ 970.

(** The conversion of an [int] operand in [float - int]: it raises
    [OverflowError] ("int too large to convert to float") outside the
    range of the floats. *)
Definition float_of_int (n : Z) : outcome Q :=
  if Z.abs n <? float_max_int then Ok (inject_Z n) else Raise OverflowError.

(** ** [datetime.date] *)

Module datetime.

Record date : Type := mk_date { year : Z; month : Z; day : Z }.

Definition MINYEAR : Z := 1.
Definition MAXYEAR : Z := 9999.

Definition _is_leap (y : Z) : bool :=
  (y mod 4 =? 0) && (negb (y mod 100 =? 0) || (y mod 400 =? 0)).

Definition _DAYS_IN_MONTH : list Z :=
  [-1; 31; 28; 31; 30; 31; 30; 31; 31; 30; 31; 30; 31].

Definition _DAYS_BEFORE_MONTH : list Z :=
  [-1; 0; 31; 59; 90; 120; 151; 181; 212; 243; 273; 304; 334].

Definition _days_in_month (y m : Z) : Z :=
  if (m =? 2) && _is_leap y then 29
  else nth (Z.to_nat m) _DAYS_IN_MONTH 0.

Definition _days_before_year (y : Z) : Z :=
  let y' := y - 1 in
  y' * 365 + y' / 4 - y' / 100 + y' / 400.

Definition _days_before_month (y m : Z) : Z :=
  nth (Z.to_nat m) _DAYS_BEFORE_MONTH 0
  + (if (2 <? m) && _is_leap y then 1 else 0).

(** The check of the [date(y, m, d)] constructor. *)
Definition valid_date (d : date) : bool :=
  (MINYEAR <=? year d) && (year d <=? MAXYEAR)
  && (1 <=? month d) && (month d <=? 12)
  && (1 <=? day d) && (day d <=? _days_in_month (year d) (month d)).

Definition new (y m d : Z) : outcome date :=
  if valid_date (mk_date y m d) then Ok (mk_date y m d)
  else Raise ValueError.

Definition toordinal (d : date) : Z :=
  _days_before_year (year d) + _days_before_month (year d) (month d) + day d.

Definition _MAXORDINAL : Z := 3652059.

(** [d.weekday()]: Monday is 0, Sunday is 6. *)
Definition weekday (d : date) : Z := (toordinal d + 6) mod 7.

(** [d1 <= d2] compares the (year, month, day) triples. *)
Definition leb (d1 d2 : date) : bool :=
  if year d1 =? year d2 then
    if month d1 =? month d2 then day d1 <=? day d2
    else month d1 <? month d2
  else year d1 <? year d2.

(** The date one day after [d] in the calendar. *)
Definition next_day (d : date) : date :=
  if day d <? _days_in_month (year d) (month d) then
    mk_date (year d) (month d) (day d + 1)
  else if month d <? 12 then mk_date (year d) (month d + 1) 1
  else mk_date (year d + 1) 1 1.

(** [d + timedelta(days=1)]: the date whose ordinal is one more, and
    [OverflowError] when that ordinal is past 9999-12-31. *)
Definition add_one_day (d : date) : outcome date :=
  if toordinal d + 1 <=? _MAXORDINAL then Ok (next_day d)
  else Raise OverflowError.

End datetime.

Import datetime.

(** ** Host and canvas *)

(** The drawing calls a canvas receives. *)
Inductive op : Type :=
| SetLineWidth (w : Q)
| SetStrokeColorRGB (r g b : Q)
| Line (x1 y1 x2 y2 : Q)
| SetFont (name : string) (size : Z)
| DrawString (x y : Q) (text : string).

(** What happens when the host writes a document to a path: it is
    written, or the write raises and leaves the file alone ([None]) or
    with some other content, a truncated document for one. *)
Inductive write_result : Type :=
| Written
| WriteFailed (e : exn) (leftover : option (list (list op))).

(** What the script reads from its host and asks of it: the file system,
    the font loader, the text metrics of reportlab, the time zone module,
    the clock, the writing of the PDF file and the standard output.
    [ZoneInfo] is the module-level name of the script: [None] when
    [from zoneinfo import ZoneInfo] failed, and otherwise the constructor,
    which finds no zone ([None]) when the key is not in the time zone
    database and then raises [ZoneInfoNotFoundError].  [stdout_write]
    gives the exception a [print] of the line raises, if any. *)
Record Host : Type := {
  os_path_exists : string -> bool;
  load_ttf : string -> string -> option exn;
  stringWidth : string -> string -> Z -> Q;
  ZoneInfo : option (string -> option string);
  datetime_now_date : string -> date;
  date_today : date;
  write_pdf : string -> list (list op) -> write_result;
  stdout_write : string -> option exn
}.

(** The mutable world of a run: the font registry of [pdfmetrics], the
    canvas (its file name, the page being drawn and the pages already
    finished), the file written by [save] and the lines printed. *)
Record state : Type := {
  fonts : list string;
  filename : string;
  page : list op;
  pages : list (list op);
  saved : option (string * list (list op));
  stdout : list string
}.

Definition initial_state : state :=
  {| fonts := []; filename := ""; page := []; pages := [];
     saved := None; stdout := [] |}.

(** The registry of [pdfmetrics] with one more font. *)
Definition add_font (st : state) (name : string) : state :=
  {| fonts := name :: fonts st; filename := filename st; page := page st;
     pages := pages st; saved := saved st; stdout := stdout st |}.

Definition M (A : Type) : Type := state -> outcome A * state.

Definition ret {A : Type} (a : A) : M A := fun st => (Ok a, st).

Definition raise {A : Type} (e : exn) : M A := fun st => (Raise e, st).

Definition bind {A B : Type} (m : M A) (k : A -> M B) : M B :=
  fun st =>
    match m st with
    | (Ok a, st') => k a st'
    | (Raise e, st') => (Raise e, st')
    | (OutOfFuel, st') => (OutOfFuel, st')
    end.

Definition lift {A : Type} (o : outcome A) : M A := fun st => (o, st).

(** [try: m except Exception: h]. *)
Definition try_except {A : Type} (m : M A) (h : M A) : M A :=
  fun st =>
    match m st with
    | (Raise _, st') => h st'
    | r => r
    end.

Declare Scope py_scope.
Delimit Scope py_scope with py.
Notation "x <- m ;; k" := (bind m (fun x => k))
  (at level 100, m at next level, right associativity) : py_scope.
Notation "m ;; k" := (bind m (fun _ => k))
  (at level 100, right associativity) : py_scope.
Local Open Scope py_scope.

(** [while cond: body], on the variables [s] the loop updates. *)
Fixpoint while {T : Type} (fuel : nat) (cond : T -> bool) (body : T -> M T)
    (s : T) : M T :=
  match fuel with
  | O => fun st => (OutOfFuel, st)
  | S fuel' =>
      if cond s then s' <- body s ;; while fuel' cond body s'
      else ret s
  end.

(** Bind on plain outcomes, for code that touches no state. *)
Definition obind {A B : Type} (o : outcome A) (k : A -> outcome B) : outcome B :=
  match o with
  | Ok a => k a
  | Raise e => Raise e
  | OutOfFuel => OutOfFuel
  end.

Module canvas.

(** The fonts every PDF reader has; reportlab knows them unregistered. *)
Definition standardFonts : list string :=
  ["Courier"; "Courier-Bold"; "Courier-Oblique"; "Courier-BoldOblique";
   "Helvetica"; "Helvetica-Bold"; "Helvetica-Oblique";
   "Helvetica-BoldOblique"; "Times-Roman"; "Times-Bold"; "Times-Italic";
   "Times-BoldItalic"; "Symbol"; "ZapfDingbats"].

Definition mem (s : string) (l : list string) : bool :=
  existsb (String.eqb s) l.

Definition font_known (st : state) (name : string) : bool :=
  mem name standardFonts || mem name (fonts st).

(** The canvas part of the state, replaced. *)
Definition set_page (st : state) (p : list op) (ps : list (list op)) : state :=
  {| fonts := fonts st; filename := filename st; page := p; pages := ps;
     saved := saved st; stdout := stdout st |}.

Definition emit (o : op) : M unit :=
  fun st => (Ok tt, set_page st (page st ++ [o])%list (pages st)).

(** [canvas.Canvas(path, pagesize=A4)]: nothing is written before
    [save]. *)
Definition Canvas (path : string) : M unit :=
  fun st =>
    (Ok tt,
     {| fonts := fonts st; filename := path; page := []; pages := [];
        saved := saved st; stdout := stdout st |}).

Definition setLineWidth (w : Q) : M unit := emit (SetLineWidth w).

Definition setStrokeColorRGB (r g b : Q) : M unit :=
  emit (SetStrokeColorRGB r g b).

Definition line (x1 y1 x2 y2 : Q) : M unit := emit (Line x1 y1 x2 y2).

(** [setFont] looks the font up and raises [KeyError] for a name that
    is neither standard nor registered. *)
Definition setFont (name : string) (size : Z) : M unit :=
  fun st =>
    if font_known st name then emit (SetFont name size) st
    else (Raise KeyError, st).

Definition drawString (x y : Q) (text : string) : M unit :=
  emit (DrawString x y text).

Definition showPage : M unit :=
  fun st => (Ok tt, set_page st [] (pages st ++ [page st])%list).

(** [save] closes a page that still has content and has the host write
    the file; a failed write raises, with the file as the host left it. *)
Definition save (host : Host) : M unit :=
  fun st =>
    let ps := match page st with
              | [] => pages st
              | _ :: _ => (pages st ++ [page st])%list
              end in
    match write_pdf host (filename st) ps with
    | Written =>
        (Ok tt,
         {| fonts := fonts st; filename := filename st; page := [];
            pages := ps; saved := Some (filename st, ps);
            stdout := stdout st |})
    | WriteFailed e leftover =>
        (Raise e,
         {| fonts := fonts st; filename := filename st; page := [];
            pages := ps;
            saved := match leftover with
                     | Some content => Some (filename st, content)
                     | None => saved st
                     end;
            stdout := stdout st |})
    end.

End canvas.

(** [print(s)]: the host writes the line to the standard output, or the
    write raises and nothing is printed. *)
Definition print (host : Host) (s : string) : M unit :=
  fun st =>
    match stdout_write host s with
    | None =>
        (Ok tt,
         {| fonts := fonts st; filename := filename st; page := page st;
            pages := pages st; saved := saved st;
            stdout := (stdout st ++ [s])%list |})
    | Some e => (Raise e, st)
    end.

(** [reportlab.lib.pagesizes.A4]: 210 mm by 297 mm in points of 1/72 inch. *)
Definition A4 : Q * Q := (75600 # 127, 106920 # 127)%Q.

(** ** The script *)

(** *** Configuration *)

Definition SPANISH_WEEKDAYS : list string :=
  ["Lunes"; "Martes"; "Miércoles"; "Jueves"; "Viernes"; "Sábado"; "Domingo"].

Definition SPANISH_MONTHS : list string :=
  ["Enero"; "Febrero"; "Marzo"; "Abril"; "Mayo"; "Junio";
   "Julio"; "Agosto"; "Septiembre"; "Octubre"; "Noviembre"; "Diciembre"].

Definition FALLBACK_FONT : string := "Helvetica".

Definition FONT_CANDIDATES : list (string * string) :=
  [("DejaVuSans", "/usr/share/fonts/truetype/dejavu/DejaVuSans.ttf");
   ("FreeSans", "/usr/share/fonts/truetype/freefont/FreeSans.ttf");
   ("Arial", "/usr/share/fonts/truetype/msttcorefonts/Arial.ttf");
   ("Arial", "Arial.ttf")].

(** *** Date utilities without the host *)

Definition end_of_year (d : date) : outcome date := datetime.new (year d) 12 31.

Definition format_date_spanish (d : date) : outcome string :=
  obind (py_index SPANISH_WEEKDAYS (weekday d)) (fun wd =>
  obind (py_index SPANISH_MONTHS (month d - 1)) (fun mo =>
  Ok (wd ++ " " ++ py_str (day d) ++ " " ++ mo ++ " " ++ py_str (year d))%string)).

(** *** Drawing the grid *)

(** The first loop of [draw_grid]: the lines at [x], [x + spacing], ... *)
Definition vertical_lines (fuel : nat) (page_w page_h : Q) (spacing : Z) : M Z :=
  while fuel
    (fun x => Qle_bool (inject_Z x) page_w)
    (fun x => canvas.line (inject_Z x) 0 (inject_Z x) page_h ;; ret (x + spacing))
    0.

(** The second loop of [draw_grid]. *)
Definition horizontal_lines (fuel : nat) (page_w stop_y : Q) (spacing : Z) : M Z :=
  while fuel
    (fun y => Qle_bool (inject_Z y) stop_y)
    (fun y => canvas.line 0 (inject_Z y) page_w (inject_Z y) ;; ret (y + spacing))
    0.

Definition draw_grid (fuel : nat) (page_w page_h : Q) (spacing top_margin : Z)
    : M unit :=
  canvas.setLineWidth 0.2 ;;
  canvas.setStrokeColorRGB 0.85 0.85 0.85 ;;
  vertical_lines fuel page_w page_h spacing ;;
  margin <- lift (float_of_int top_margin) ;;
  let stop_y := (page_h - margin)%Q in
  horizontal_lines fuel page_w stop_y spacing ;;
  ret tt.

Section WithHost.

Variable host : Host.

(** *** Font handling *)

(** [pdfmetrics.registerFont(TTFont(name, path))]. *)
Definition registerFont (name path : string) : M unit :=
  fun st =>
    match load_ttf host name path with
    | None => (Ok tt, add_font st name)
    | Some e => (Raise e, st)
    end.

(** The [for] loop of [register_readable_font] over the candidates that
    are left.  The body of the [try] yields [Some name] when it reaches
    its [return], and [None] when the loop goes on. *)
Fixpoint register_from (candidates : list (string * string)) : M string :=
  match candidates with
  | [] => ret FALLBACK_FONT
  | (name, path) :: rest =>
      r <- try_except
             (if os_path_exists host path
              then registerFont name path ;; ret (Some name)
              else ret None)
             (ret None) ;;
      match r with
      | Some n => ret n
      | None => register_from rest
      end
  end.

Definition register_readable_font : M string := register_from FONT_CANDIDATES.

(** *** Today *)

Definition today_europe_paris : M date :=
  match ZoneInfo host with
  | Some zone_info =>
      match zone_info "Europe/Paris" with
      | Some tz => ret (datetime_now_date host tz)
      | None => raise ZoneInfoNotFoundError
      end
  | None => ret (date_today host)
  end.

(** *** Header and page number *)

Definition draw_centered_text_top (text : string) (page_w page_h : Q)
    (font_name : string) (font_size top_offset : Z) : M unit :=
  canvas.setFont font_name font_size ;;
  let text_w := stringWidth host text font_name font_size in
  let x := ((page_w - text_w) / 2)%Q in
  offset <- lift (float_of_int top_offset) ;;
  canvas.drawString x (page_h - offset)%Q text.

Definition draw_page_number (page_w : Q) (font_name : string) (number : Z)
    (font_size bottom_margin : Z) : M unit :=
  let label := py_str number in
  canvas.setFont font_name font_size ;;
  let text_w := stringWidth host label font_name font_size in
  canvas.drawString ((page_w - text_w) / 2)%Q (inject_Z bottom_margin) label.

(** *** Pipeline *)

(** One turn of the [while current <= end] loop. *)
Definition agenda_page (fuel : nat) (font_name : string)
    (spacing header_font_size : Z) (include_page_numbers : bool)
    (top_margin : Z) (s : Z * date) : M (Z * date) :=
  let '(page_num, current) := s in
  let '(page_w, page_h) := A4 in
  draw_grid fuel page_w page_h spacing top_margin ;;
  header_text <- lift (format_date_spanish current) ;;
  draw_centered_text_top header_text page_w page_h font_name
    header_font_size (top_margin - 30) ;;
  (if include_page_numbers
   then draw_page_number page_w font_name page_num 10 20
   else ret tt) ;;
  canvas.showPage ;;
  next <- lift (add_one_day current) ;;
  ret (page_num + 1, next).

(** The loop of [build_agenda_pdf], from the counter and cursor [s]. *)
Definition agenda_loop (fuel : nat) (font_name : string)
    (spacing header_font_size : Z) (include_page_numbers : bool)
    (top_margin : Z) (end_ : date) (s : Z * date) : M (Z * date) :=
  while fuel
    (fun s => datetime.leb (snd s) end_)
    (agenda_page fuel font_name spacing header_font_size
       include_page_numbers top_margin)
    s.

Definition build_agenda_pdf (fuel : nat) (output_path : string)
    (start_date : option date) (spacing header_font_size : Z)
    (include_page_numbers : bool) (top_margin : Z) : M unit :=
  start <- match start_date with
           | Some d => ret d
           | None => today_europe_paris
           end ;;
  end_ <- lift (end_of_year start) ;;
  font_name <- register_readable_font ;;
  canvas.Canvas output_path ;;
  agenda_loop fuel font_name spacing header_font_size include_page_numbers
    top_margin end_ (1, start) ;;
  canvas.save host ;;
  print host ("[DONE] Agenda saved to " ++ output_path)%string.

End WithHost.

(** ** Vocabulary of the properties *)

(** The first [n] values of a cursor that starts at [x] and moves by [s]. *)
Fixpoint multiples (x s : Z) (n : nat) : list Z :=
  match n with
  | O => []
  | S n' => x :: multiples (x + s) s n'
  end.

(** How many of [x], [x + s], [x + 2 s], ... are at most [bound], for a
    positive step [s]. *)
Definition steps (bound : Q) (x s : Z) : nat :=
  Z.to_nat ((Qfloor bound - x) / s + 1).

Definition vertical (page_h : Q) (x : Z) : op :=
  Line (inject_Z x) 0 (inject_Z x) page_h.

Definition horizontal (page_w : Q) (y : Z) : op :=
  Line 0 (inject_Z y) page_w (inject_Z y).

(** The lines a canvas has received. *)
Definition is_line (o : op) : bool :=
  match o with
  | Line _ _ _ _ => true
  | _ => false
  end.

(** The header band: the points less than [top_margin] below the top. *)
Definition in_header_band (page_h : Q) (top_margin : Z) (y : Q) : bool :=
  negb (Qle_bool y (page_h - inject_Z top_margin)).

(** A line enters the band when one of its ends lies in it. *)
Definition enters_header_band (page_h : Q) (top_margin : Z) (o : op) : bool :=
  match o with
  | Line _ y1 _ y2 =>
      in_header_band page_h top_margin y1 || in_header_band page_h top_margin y2
  | _ => false
  end.

(** What [draw_grid] sends to the canvas when its loops end. *)
Definition grid_ops (page_w page_h : Q) (spacing top_margin : Z) : list op :=
  ([SetLineWidth 0.2; SetStrokeColorRGB 0.85 0.85 0.85]
   ++ map (vertical page_h) (multiples 0 spacing (steps page_w 0 spacing))
   ++ map (horizontal page_w)
        (multiples 0 spacing
           (steps (page_h - inject_Z top_margin) 0 spacing)))%list.

(** Fuel that lets both loops of [draw_grid] end. *)
Definition grid_fuel (page_w page_h : Q) (spacing top_margin : Z) : nat :=
  S (Nat.max (steps page_w 0 spacing)
       (steps (page_h - inject_Z top_margin) 0 spacing)).

(** The calendar days from [d] to 31 December of its year, both included. *)
Definition days_left (d : date) : Z :=
  toordinal (mk_date (year d) 12 31) - toordinal d + 1.

(** [d] and the [n - 1] days after it. *)
Fixpoint days_from (d : date) (n : nat) : list date :=
  match n with
  | O => []
  | S n' => d :: days_from (next_day d) n'
  end.

(** The header of the page of [d], as the spec words it. *)
Definition spanish_date (d : date) : string :=
  (nth (Z.to_nat (weekday d)) SPANISH_WEEKDAYS "" ++ " " ++ py_str (day d)
   ++ " " ++ nth (Z.to_nat (month d - 1)) SPANISH_MONTHS "" ++ " "
   ++ py_str (year d))%string.

Definition is_none {A : Type} (o : option A) : bool :=
  match o with
  | None => true
  | Some _ => false
  end.

Section Pages.

Variable host : Host.

(** A candidate that can be used: its file exists and it loads. *)
Definition usable (c : string * string) : bool :=
  os_path_exists host (snd c) && is_none (load_ttf host (fst c) (snd c)).

(** The font the spec resolves: the first usable candidate, else the
    fallback. *)
Definition resolved_font : string :=
  match find usable FONT_CANDIDATES with
  | Some c => fst c
  | None => FALLBACK_FONT
  end.

Definition centered (page_w : Q) (text font : string) (size : Z) : Q :=
  ((page_w - stringWidth host text font size) / 2)%Q.

Definition header_ops (font : string) (size top_margin : Z) (d : date)
    : list op :=
  [SetFont font size;
   DrawString (centered (fst A4) (spanish_date d) font size)
     (snd A4 - inject_Z (top_margin - 30))%Q (spanish_date d)].

Definition number_ops (font : string) (n : Z) : list op :=
  [SetFont font 10; DrawString (centered (fst A4) (py_str n) font 10) 20 (py_str n)].

(** The finished page number [n], for the day [d]. *)
Definition page_ops (font : string) (spacing size : Z) (numbered : bool)
    (top_margin : Z) (n : Z) (d : date) : list op :=
  (grid_ops (fst A4) (snd A4) spacing top_margin
   ++ header_ops font size top_margin d
   ++ (if numbered then number_ops font n else []))%list.

(** The pages [n], [n + 1], ... for [d] and the days after it. *)
Fixpoint agenda_pages (font : string) (spacing size : Z) (numbered : bool)
    (top_margin : Z) (n : Z) (d : date) (count : nat) : list (list op) :=
  match count with
  | O => []
  | S count' =>
      page_ops font spacing size numbered top_margin n d
      :: agenda_pages font spacing size numbered top_margin (n + 1)
           (next_day d) count'
  end.

End Pages.

(** The page number a finished page shows: the text of its last drawing
    call, when that call is the label at the bottom margin. *)
Definition page_label (p : list op) : option string :=
  match rev p with
  | DrawString _ y text :: _ => if Qeq_bool y 20 then Some text else None
  | _ => None
  end.

(** What no drawing call touches. *)
Definition same_document (st st' : state) : Prop :=
  pages st' = pages st /\ fonts st' = fonts st /\ saved st' = saved st
  /\ filename st' = filename st.


(** The top margin of a run can be converted to a float where the script
    does so: in [draw_grid], and less 30 in [draw_centered_text_top]. *)
Definition margin_in_range (top_margin : Z) : Prop :=
  Z.abs top_margin < float_max_int
  /\ Z.abs (top_margin - 30) < float_max_int.

(** The line a finished run prints. *)
Definition done_line (output_path : string) : string :=
  ("[DONE] Agenda saved to " ++ output_path)%string.

(** The state in which the loop of [build_agenda_pdf] starts: the font is
    resolved and the canvas is new. *)
Definition loop_start (host : Host) (output_path : string) (st : state)
    : state :=
  snd (canvas.Canvas output_path (snd (register_readable_font host st))).

(** The end of [build_agenda_pdf], after its loop. *)
Definition finish (host : Host) (output_path : string) : M unit :=
  (canvas.save host ;; print host (done_line output_path))%py.

(** Fuel that lets a run from [start] finish: enough for the grid of a
    page, and for one turn of the loop per day and the last test. *)
Definition agenda_fuel (spacing top_margin : Z) (start : date) : nat :=
  Nat.max (grid_fuel (fst A4) (snd A4) spacing top_margin)
    (S (S (Z.to_nat (days_left start)))).

(** [int(s)] on a decimal numeral. *)
Definition py_int (s : string) : option Z :=
  option_map Z.of_int (NilZero.int_of_string s).

Definition starts_with_zero (s : string) : bool :=
  match s with
  | String c _ => Ascii.eqb c "0"
  | EmptyString => false
  end.

(** The start date of a run: the one given, or today. *)
Definition start_of (host : Host) (start_date : option date) : M date :=
  match start_date with
  | Some d => ret d
  | None => today_europe_paris host
  end.

(** The time zone database of the host knows [key]. *)
Definition zone_known (host : Host) (key : string) : bool :=
  match ZoneInfo host with
  | Some zone_info => negb (is_none (zone_info key))
  | None => false
  end.

(** *** Hosts to run the script on *)

Definition sample_width (text font : string) (size : Z) : Q :=
  (inject_Z (Z.of_nat (String.length text) * size) * (6 # 10))%Q.

(** A Linux host with the DejaVu font and a time zone database. *)
Definition linux_host : Host :=
  {| os_path_exists := String.eqb "/usr/share/fonts/truetype/dejavu/DejaVuSans.ttf";
     load_ttf := fun _ _ => None;
     stringWidth := sample_width;
     ZoneInfo := Some (fun key => if String.eqb key "Europe/Paris"
                                  then Some key else None);
     datetime_now_date := fun _ => mk_date 2025 8 28;
     date_today := mk_date 2025 8 28;
     write_pdf := fun _ _ => Written;
     stdout_write := fun _ => None |}.

(** A host with no font file and with [zoneinfo] but no time zone data. *)
Definition bare_host : Host :=
  {| os_path_exists := fun _ => false;
     load_ttf := fun _ _ => Some TTFError;
     stringWidth := sample_width;
     ZoneInfo := Some (fun _ => None);
     datetime_now_date := fun _ => mk_date 2025 8 28;
     date_today := mk_date 2025 8 28;
     write_pdf := fun _ _ => Written;
     stdout_write := fun _ => None |}.

(** A Linux host whose DejaVu font file is damaged and whose FreeSans
    font file is good. *)
Definition broken_dejavu_host : Host :=
  {| os_path_exists := fun path =>
       String.eqb path "/usr/share/fonts/truetype/dejavu/DejaVuSans.ttf"
       || String.eqb path "/usr/share/fonts/truetype/freefont/FreeSans.ttf";
     load_ttf := fun name _ =>
       if String.eqb name "DejaVuSans" then Some TTFError else None;
     stringWidth := sample_width;
     ZoneInfo := Some (fun key => if String.eqb key "Europe/Paris"
                                  then Some key else None);
     datetime_now_date := fun _ => mk_date 2025 8 28;
     date_today := mk_date 2025 8 28;
     write_pdf := fun _ _ => Written;
     stdout_write := fun _ => None |}.

(** A host on which no file can be written. *)
Definition read_only_host : Host :=
  {| os_path_exists := fun _ => false;
     load_ttf := fun _ _ => Some TTFError;
     stringWidth := sample_width;
     ZoneInfo := None;
     datetime_now_date := fun _ => mk_date 2025 12 30;
     date_today := mk_date 2025 12 30;
     write_pdf := fun _ _ => WriteFailed OSError None;
     stdout_write := fun _ => None |}.

(** A host whose disk is full: the write fails and leaves an empty file. *)
Definition full_disk_host : Host :=
  {| os_path_exists := fun _ => false;
     load_ttf := fun _ _ => Some TTFError;
     stringWidth := sample_width;
     ZoneInfo := None;
     datetime_now_date := fun _ => mk_date 2025 12 30;
     date_today := mk_date 2025 12 30;
     write_pdf := fun _ _ => WriteFailed OSError (Some []);
     stdout_write := fun _ => None |}.

(** A host whose standard output is a closed pipe. *)
Definition closed_stdout_host : Host :=
  {| os_path_exists := fun _ => false;
     load_ttf := fun _ _ => Some TTFError;
     stringWidth := sample_width;
     ZoneInfo := None;
     datetime_now_date := fun _ => mk_date 2025 12 30;
     date_today := mk_date 2025 12 30;
     write_pdf := fun _ _ => Written;
     stdout_write := fun _ => Some OSError |}.

(** A host whose Python has no [zoneinfo] module. *)
Definition old_python_host : Host :=
  {| os_path_exists := fun _ => false;
     load_ttf := fun _ _ => Some TTFError;
     stringWidth := sample_width;
     ZoneInfo := None;
     datetime_now_date := fun _ => mk_date 2025 8 27;
     date_today := mk_date 2025 8 28;
     write_pdf := fun _ _ => Written;
     stdout_write := fun _ => None |}.

(** *** The script run directly *)

(** The [if __name__ == "__main__"] block. *)
Definition main (host : Host) (fuel : nat) : M unit :=
  build_agenda_pdf host fuel "Agenda_2025.pdf" None 20 40 true 100.

(** *** More vocabulary *)

(** The texts a page shows, in the order they were drawn. *)
Definition texts (p : list op) : list string :=
  flat_map (fun o => match o with
                     | DrawString _ _ text => [text]
                     | _ => []
                     end) p.

(** [m] keeps [P]: from a state where [P] holds it ends, returns or not,
    in a state where [P] holds. *)
Definition keeps {A : Type} (P : state -> Prop) (m : M A) : Prop :=
  forall st, P st -> P (snd (m st)).

Definition has_space (s : string) : bool :=
  existsb (Ascii.eqb " ") (list_ascii_of_string s).

(** The lines printed so far are [out]. *)
Definition printed (out : list string) (st : state) : Prop := stdout st = out.

(** [m] raises no exception. *)
Definition never_raises {A : Type} (m : M A) : Prop :=
  forall st e, fst (m st) <> Raise e.

(** [m] raises no exception but those of [P]. *)
Definition raises_only {A : Type} (P : exn -> Prop) (m : M A) : Prop :=
  forall st e, fst (m st) = Raise e -> P e.

(** The page being drawn has only grown since it was [p0], and by no
    text. *)
Definition drawn_on (p0 : list op) (st : state) : Prop :=
  exists ops, page st = (p0 ++ ops)%list /\ texts ops = [].
(** ** Calendar facts *)

Ltac month_cases m :=
  let H := fresh "Hm" in
  assert (H : m = 1 \/ m = 2 \/ m = 3 \/ m = 4 \/ m = 5 \/ m = 6 \/ m = 7
              \/ m = 8 \/ m = 9 \/ m = 10 \/ m = 11 \/ m = 12) by lia;
  repeat (destruct H as [H | H]); subst m.

(** Reads the month tables at a literal index. *)
Ltac tables :=
  repeat match goal with
    | |- context [Z.pos ?a + Z.pos ?b] =>
        let v := eval vm_compute in (Z.pos a + Z.pos b) in
        change (Z.pos a + Z.pos b) with v
    end;
  repeat match goal with
    | |- context [nth (Z.to_nat ?k) ?T ?d] =>
        let v := eval vm_compute in (nth (Z.to_nat k) T d) in
        change (nth (Z.to_nat k) T d) with v
    end;
  cbn [Z.eqb Z.ltb Z.compare Pos.compare Pos.compare_cont Pos.eqb andb orb negb].

Lemma valid_date_bounds d :
  valid_date d = true ->
  1 <= year d <= 9999 /\ 1 <= month d <= 12
  /\ 1 <= day d <= _days_in_month (year d) (month d).
Proof.
  unfold valid_date, MINYEAR, MAXYEAR. intros H.
  repeat (apply andb_prop in H; destruct H as [H ?]). lia.
Qed.

Lemma valid_date_intro d :
  1 <= year d <= 9999 -> 1 <= month d <= 12 ->
  1 <= day d <= _days_in_month (year d) (month d) ->
  valid_date d = true.
Proof.
  intros. unfold valid_date, MINYEAR, MAXYEAR.
  repeat (apply andb_true_intro; split); lia.
Qed.

Lemma days_in_month_bounds y m :
  1 <= m <= 12 -> 28 <= _days_in_month y m <= 31.
Proof.
  intros Hm. unfold _days_in_month. month_cases m;
    destruct (_is_leap y); tables; lia.
Qed.

Lemma days_before_next_year y :
  _days_before_year (y + 1)
  = _days_before_year y + 365 + (if _is_leap y then 1 else 0).
Proof.
  unfold _days_before_year, _is_leap. cbv zeta.
  replace (y + 1 - 1) with y by lia.
  destruct (y mod 4 =? 0) eqn:E4; destruct (y mod 100 =? 0) eqn:E100;
    destruct (y mod 400 =? 0) eqn:E400; cbn [andb orb negb];
    rewrite ?Z.eqb_eq, ?Z.eqb_neq in *;
    Z.to_euclidean_division_equations; lia.
Qed.

Lemma toordinal_next_day d :
  valid_date d = true -> toordinal (next_day d) = toordinal d + 1.
Proof.
  intros Hv. apply valid_date_bounds in Hv. destruct Hv as (Hy & Hm & Hd).
  destruct d as [y m dd]. cbn [year month day] in *.
  unfold next_day, toordinal. cbn [year month day].
  destruct (dd <? _days_in_month y m) eqn:E1; cbn [year month day]; [lia|].
  apply Z.ltb_ge in E1. assert (Hdd : dd = _days_in_month y m) by lia.
  destruct (m <? 12) eqn:E2; cbn [year month day].
  - apply Z.ltb_lt in E2. subst dd. unfold _days_before_month, _days_in_month.
    month_cases m; try lia; destruct (_is_leap y); tables; lia.
  - apply Z.ltb_ge in E2. assert (m = 12) by lia. subst m.
    rewrite days_before_next_year. subst dd.
    unfold _days_before_month, _days_in_month.
    destruct (_is_leap y); tables; lia.
Qed.

Lemma last_day_ordinal y :
  toordinal (mk_date y 12 31) = _days_before_year (y + 1).
Proof.
  rewrite days_before_next_year. unfold toordinal, _days_before_month.
  cbn [year month day]. destruct (_is_leap y); tables; lia.
Qed.

Lemma days_before_year_max y : y <= 10000 -> _days_before_year y <= _MAXORDINAL.
Proof.
  unfold _days_before_year, _MAXORDINAL. cbv zeta. intros Hy.
  Z.to_euclidean_division_equations; lia.
Qed.

Lemma days_before_year_mono y : _days_before_year y < _days_before_year (y + 1).
Proof. rewrite days_before_next_year. destruct (_is_leap y); lia. Qed.

Lemma days_left_pos d : valid_date d = true -> 1 <= days_left d.
Proof.
  intros Hv. apply valid_date_bounds in Hv. destruct Hv as (Hy & Hm & Hd).
  destruct d as [y m dd]. cbn [year month day] in *.
  unfold days_left, toordinal, _days_before_month. cbn [year month day].
  revert Hd. unfold _days_in_month.
  month_cases m; destruct (_is_leap y); tables; lia.
Qed.

Lemma days_left_one d :
  valid_date d = true -> days_left d = 1 -> month d = 12 /\ day d = 31.
Proof.
  intros Hv. apply valid_date_bounds in Hv. destruct Hv as (Hy & Hm & Hd).
  destruct d as [y m dd]. cbn [year month day] in *.
  unfold days_left, toordinal, _days_before_month. cbn [year month day].
  revert Hd. unfold _days_in_month.
  month_cases m; destruct (_is_leap y); tables; lia.
Qed.

Lemma days_left_last y : days_left (mk_date y 12 31) = 1.
Proof. unfold days_left. cbn [year]. lia. Qed.

Lemma days_left_first y :
  days_left (mk_date y 1 1) = if _is_leap y then 366 else 365.
Proof.
  unfold days_left. cbn [year]. rewrite last_day_ordinal, days_before_next_year.
  unfold toordinal, _days_before_month. cbn [year month day].
  destruct (_is_leap y); tables; lia.
Qed.

(** Before 31 December the next day is in the same year. *)
Lemma next_day_same_year d :
  valid_date d = true -> 1 < days_left d ->
  valid_date (next_day d) = true
  /\ year (next_day d) = year d
  /\ days_left (next_day d) = days_left d - 1.
Proof.
  intros Hv Hl. pose proof (toordinal_next_day d Hv) as Hn.
  pose proof (valid_date_bounds d Hv) as (Hy & Hm & Hd).
  assert (Hyear : year (next_day d) = year d
                  /\ valid_date (next_day d) = true).
  { unfold next_day.
    destruct (day d <? _days_in_month (year d) (month d)) eqn:E1.
    - apply Z.ltb_lt in E1. split; [reflexivity|].
      apply valid_date_intro; cbn [year month day]; lia.
    - apply Z.ltb_ge in E1. destruct (month d <? 12) eqn:E2.
      + apply Z.ltb_lt in E2. split; [reflexivity|].
        apply valid_date_intro; cbn [year month day]; try lia.
        pose proof (days_in_month_bounds (year d) (month d + 1)). lia.
      + apply Z.ltb_ge in E2. exfalso.
        assert (Hm12 : month d = 12) by lia.
        assert (Hd31 : day d = 31).
        { rewrite Hm12 in Hd, E1. unfold _days_in_month in Hd, E1.
          revert Hd E1. tables. lia. }
        destruct d as [y m dd]. cbn [year month day] in *. subst m dd.
        rewrite days_left_last in Hl. lia. }
  destruct Hyear as [Hyr Hvn]. repeat split; try assumption.
  unfold days_left. rewrite Hyr, Hn. lia.
Qed.

(** A valid date is not after 31 December of its year. *)
Lemma leb_end_of_year d :
  valid_date d = true -> datetime.leb d (mk_date (year d) 12 31) = true.
Proof.
  intros Hv. pose proof (valid_date_bounds d Hv) as (Hy & Hm & Hd).
  pose proof (days_in_month_bounds (year d) (month d) Hm) as Hb.
  unfold datetime.leb. cbn [year month day]. rewrite Z.eqb_refl.
  destruct (month d =? 12) eqn:E; [lia|]. apply Z.eqb_neq in E. lia.
Qed.

Lemma leb_new_year y : datetime.leb (mk_date (y + 1) 1 1) (mk_date y 12 31) = false.
Proof.
  unfold datetime.leb. cbn [year month day].
  destruct (y + 1 =? y) eqn:E; [lia|]. lia.
Qed.

Lemma next_day_last y : next_day (mk_date y 12 31) = mk_date (y + 1) 1 1.
Proof.
  unfold next_day, _days_in_month. cbn [year month day]. tables. reflexivity.
Qed.

(** A day can be added to every date before 9999-12-31, and to no other. *)
Lemma add_one_day_spec d :
  valid_date d = true ->
  add_one_day d
  = if (year d =? 9999) && (days_left d =? 1) then Raise OverflowError
    else Ok (next_day d).
Proof.
  intros Hv. pose proof (valid_date_bounds d Hv) as (Hy & Hm & Hd).
  pose proof (days_left_pos d Hv) as Hp. unfold add_one_day.
  assert (Hto : toordinal d = _days_before_year (year d + 1) + 1 - days_left d).
  { unfold days_left. rewrite last_day_ordinal. lia. }
  destruct (year d =? 9999) eqn:Ey; cbn [andb].
  - apply Z.eqb_eq in Ey. rewrite Hto, Ey.
    change (_days_before_year (9999 + 1)) with _MAXORDINAL.
    destruct (days_left d =? 1) eqn:El.
    + apply Z.eqb_eq in El. destruct (_ <=? _) eqn:E; [lia|reflexivity].
    + apply Z.eqb_neq in El. destruct (_ <=? _) eqn:E; [reflexivity|lia].
  - apply Z.eqb_neq in Ey.
    pose proof (days_before_year_max (year d + 2)) as Hmax.
    pose proof (days_before_year_mono (year d + 1)) as Hmono.
    replace (year d + 1 + 1) with (year d + 2) in Hmono by lia.
    destruct (_ <=? _) eqn:E; [reflexivity|lia].
Qed.

(** ** The canvas and the loops of [draw_grid] *)

Lemma set_page_same st : canvas.set_page st (page st) (pages st) = st.
Proof. destruct st. reflexivity. Qed.

Lemma set_page_twice st p ps p' ps' :
  canvas.set_page (canvas.set_page st p ps) p' ps' = canvas.set_page st p' ps'.
Proof. reflexivity. Qed.

Lemma font_known_set_page st p ps name :
  canvas.font_known (canvas.set_page st p ps) name = canvas.font_known st name.
Proof. reflexivity. Qed.

(** The test of both loops, on integers. *)
Lemma cursor_test x q : Qle_bool (inject_Z x) q = (x <=? Qfloor q).
Proof.
  destruct (x <=? Qfloor q) eqn:E.
  - apply Z.leb_le in E. apply Qle_bool_iff.
    apply Qle_trans with (inject_Z (Qfloor q)); [|apply Qfloor_le].
    rewrite <- Zle_Qle. exact E.
  - apply Z.leb_gt in E. destruct (Qle_bool (inject_Z x) q) eqn:B; [|reflexivity].
    apply Qle_bool_iff in B. apply Qfloor_resp_le in B.
    rewrite Qfloor_Z in B. lia.
Qed.

Lemma steps_zero bound x s : 0 < s -> Qfloor bound < x -> steps bound x s = 0%nat.
Proof.
  intros Hs Hx. unfold steps.
  assert ((Qfloor bound - x) / s < 0) by (apply Z.div_lt_upper_bound; lia).
  lia.
Qed.

Lemma steps_succ bound x s :
  0 < s -> x <= Qfloor bound -> steps bound x s = S (steps bound (x + s) s).
Proof.
  intros Hs Hx. unfold steps.
  replace (Qfloor bound - x) with ((Qfloor bound - (x + s)) + 1 * s) by lia.
  rewrite Z.div_add by lia.
  assert (-1 <= (Qfloor bound - (x + s)) / s).
  { apply Z.div_le_lower_bound; lia. }
  lia.
Qed.

Section CountedLoop.

Variable mk : Z -> op.
Variable bound : Q.
Variable s : Z.


(** With a positive step the loop ends after [steps] turns and has drawn
    one line per cursor value. *)
Lemma counted_loop :
  0 < s ->
  forall n fuel x st,
    steps bound x s = n -> (n < fuel)%nat ->
    while fuel (fun x => Qle_bool (inject_Z x) bound)
      (fun x => canvas.emit (mk x) ;; ret (x + s)) x st
    = (Ok (x + Z.of_nat n * s),
       canvas.set_page st (page st ++ map mk (multiples x s n)) (pages st)).
Proof.
  intros Hs. induction n as [|n IH]; intros fuel x st Hn Hf.
  - destruct fuel as [|fuel]; [lia|]. cbn [while].
    rewrite cursor_test. destruct (x <=? Qfloor bound) eqn:E.
    + apply Z.leb_le in E. rewrite steps_succ in Hn by assumption. discriminate.
    + cbn [multiples map]. rewrite app_nil_r, set_page_same.
      unfold ret. f_equal. f_equal. lia.
  - destruct fuel as [|fuel]; [lia|]. cbn [while].
    rewrite cursor_test. destruct (x <=? Qfloor bound) eqn:E.
    + apply Z.leb_le in E. rewrite steps_succ in Hn by assumption.
      injection Hn as Hn. unfold bind at 1. unfold bind at 1.
      unfold canvas.emit at 1. unfold ret at 1.
      rewrite (IH fuel (x + s)) by (assumption || lia).
      cbn [page pages canvas.set_page fonts filename saved stdout multiples map].
      unfold canvas.set_page. cbn [page pages fonts filename saved stdout].
      rewrite <- app_assoc. cbn [app]. f_equal. f_equal. lia.
    + apply Z.leb_gt in E. rewrite steps_zero in Hn by assumption.
      discriminate.
Qed.

(** With a step that is not positive a loop that starts never ends. *)
Lemma stuck_loop :
  s <= 0 ->
  forall fuel x st,
  x <= Qfloor bound ->
  fst (while fuel (fun x => Qle_bool (inject_Z x) bound)
         (fun x => canvas.emit (mk x) ;; ret (x + s)) x st)
  = OutOfFuel.
Proof.
  intros Hs. induction fuel as [|fuel IH]; intros x st Hx; [reflexivity|].
  cbn [while]. rewrite cursor_test.
  destruct (x <=? Qfloor bound) eqn:E; [|apply Z.leb_gt in E; lia].
  unfold bind at 1. unfold bind at 1.
  unfold canvas.emit at 1. unfold ret at 1.
  apply IH. lia.
Qed.

End CountedLoop.

Lemma vertical_lines_ok fuel page_w page_h spacing st :
  0 < spacing -> (steps page_w 0 spacing < fuel)%nat ->
  vertical_lines fuel page_w page_h spacing st
  = (Ok (0 + Z.of_nat (steps page_w 0 spacing) * spacing),
     canvas.set_page st
       (page st
        ++ map (vertical page_h) (multiples 0 spacing (steps page_w 0 spacing)))
       (pages st)).
Proof.
  intros Hs Hf. unfold vertical_lines.
  exact (counted_loop (vertical page_h) page_w spacing Hs _ fuel 0 st eq_refl Hf).
Qed.

Lemma horizontal_lines_ok fuel page_w stop_y spacing st :
  0 < spacing -> (steps stop_y 0 spacing < fuel)%nat ->
  horizontal_lines fuel page_w stop_y spacing st
  = (Ok (0 + Z.of_nat (steps stop_y 0 spacing) * spacing),
     canvas.set_page st
       (page st
        ++ map (horizontal page_w) (multiples 0 spacing (steps stop_y 0 spacing)))
       (pages st)).
Proof.
  intros Hs Hf. unfold horizontal_lines.
  exact (counted_loop (horizontal page_w) stop_y spacing Hs _ fuel 0 st eq_refl Hf).
Qed.

Lemma float_of_int_ok n :
  Z.abs n < float_max_int -> float_of_int n = Ok (inject_Z n).
Proof.
  intros Hn. unfold float_of_int.
  destruct (Z.abs n <? float_max_int) eqn:E; [reflexivity|].
  apply Z.ltb_ge in E. lia.
Qed.

Lemma float_of_int_overflow n :
  float_max_int <= Z.abs n -> float_of_int n = Raise OverflowError.
Proof.
  intros Hn. unfold float_of_int.
  destruct (Z.abs n <? float_max_int) eqn:E; [|reflexivity].
  apply Z.ltb_lt in E. lia.
Qed.

(** With a positive spacing, a top margin in the range of the floats and
    enough fuel [draw_grid] returns, and the page has received
    [grid_ops]. *)
Lemma draw_grid_ok fuel page_w page_h spacing top_margin st :
  0 < spacing ->
  Z.abs top_margin < float_max_int ->
  (grid_fuel page_w page_h spacing top_margin <= fuel)%nat ->
  draw_grid fuel page_w page_h spacing top_margin st
  = (Ok tt,
     canvas.set_page st
       (page st ++ grid_ops page_w page_h spacing top_margin) (pages st)).
Proof.
  intros Hs Hm Hf. unfold grid_fuel in Hf. unfold draw_grid, grid_ops.
  unfold bind at 1. unfold canvas.setLineWidth, canvas.emit at 1.
  unfold bind at 1. unfold canvas.setStrokeColorRGB, canvas.emit at 1.
  unfold bind at 1. rewrite vertical_lines_ok by (assumption || lia).
  unfold bind at 1. unfold lift at 1. rewrite float_of_int_ok by assumption.
  cbv beta iota zeta.
  unfold bind at 1. rewrite horizontal_lines_ok by (assumption || lia).
  unfold ret. cbn [page pages canvas.set_page fonts filename saved stdout].
  unfold canvas.set_page. cbn [page pages fonts filename saved stdout].
  repeat rewrite <- app_assoc. reflexivity.
Qed.

(** With a top margin outside the range of the floats [draw_grid] draws
    its vertical lines and then raises. *)
Lemma draw_grid_overflow fuel page_w page_h spacing top_margin st :
  0 < spacing ->
  float_max_int <= Z.abs top_margin ->
  (steps page_w 0 spacing < fuel)%nat ->
  draw_grid fuel page_w page_h spacing top_margin st
  = (Raise OverflowError,
     canvas.set_page st
       (page st
        ++ [SetLineWidth 0.2; SetStrokeColorRGB 0.85 0.85 0.85]
        ++ map (vertical page_h) (multiples 0 spacing (steps page_w 0 spacing)))
       (pages st)).
Proof.
  intros Hs Hm Hf. unfold draw_grid.
  unfold bind at 1. unfold canvas.setLineWidth, canvas.emit at 1.
  unfold bind at 1. unfold canvas.setStrokeColorRGB, canvas.emit at 1.
  unfold bind at 1. rewrite vertical_lines_ok by (assumption || lia).
  unfold bind at 1. unfold lift at 1.
  rewrite float_of_int_overflow by assumption.
  cbn [page pages canvas.set_page fonts filename saved stdout].
  unfold canvas.set_page. cbn [page pages fonts filename saved stdout].
  repeat rewrite <- app_assoc. reflexivity.
Qed.

Lemma floor_nonneg q : (0 <= q)%Q -> 0 <= Qfloor q.
Proof.
  intros Hq. apply Qfloor_resp_le in Hq. exact Hq.
Qed.

Lemma vertical_lines_stuck fuel page_w page_h spacing st :
  spacing <= 0 -> (0 <= page_w)%Q ->
  fst (vertical_lines fuel page_w page_h spacing st) = OutOfFuel.
Proof.
  intros Hs Hw. unfold vertical_lines.
  exact (stuck_loop (vertical page_h) page_w spacing Hs fuel 0 st
           (floor_nonneg page_w Hw)).
Qed.


(** With a spacing that is not positive the first loop of [draw_grid]
    never ends on a page of width 0 or more. *)
Lemma draw_grid_stuck fuel page_w page_h spacing top_margin st :
  spacing <= 0 -> (0 <= page_w)%Q ->
  fst (draw_grid fuel page_w page_h spacing top_margin st) = OutOfFuel.
Proof.
  intros Hs Hw. unfold draw_grid.
  unfold bind at 1. unfold canvas.setLineWidth, canvas.emit at 1.
  unfold bind at 1. unfold canvas.setStrokeColorRGB, canvas.emit at 1.
  unfold bind at 1.
  match goal with
  | |- context [vertical_lines fuel page_w page_h spacing ?s0] =>
      pose proof (vertical_lines_stuck fuel page_w page_h spacing s0 Hs Hw) as H;
      destruct (vertical_lines fuel page_w page_h spacing s0) as [[x| e |] s1]
  end; cbn [fst] in H; try discriminate. reflexivity.
Qed.

(** ** The header text *)

Lemma py_index_in_range {A : Type} (l : list A) (i : Z) (d : A) :
  0 <= i < Z.of_nat (List.length l) ->
  py_index l i = Ok (nth (Z.to_nat i) l d).
Proof.
  intros Hi. unfold py_index.
  destruct (i <? 0) eqn:E; [lia|].
  destruct ((0 <=? i) && (i <? Z.of_nat (List.length l))) eqn:B.
  - rewrite (nth_error_nth' l d) by lia. reflexivity.
  - apply andb_false_iff in B. destruct B as [B | B]; lia.
Qed.

Lemma weekday_range d : 0 <= weekday d <= 6.
Proof.
  unfold weekday. pose proof (Z.mod_pos_bound (toordinal d + 6) 7). lia.
Qed.

(** On a valid date both table lookups succeed. *)
Lemma format_date_spanish_ok d :
  valid_date d = true -> format_date_spanish d = Ok (spanish_date d).
Proof.
  intros Hv. pose proof (valid_date_bounds d Hv) as (Hy & Hm & Hd).
  pose proof (weekday_range d) as Hw. unfold format_date_spanish.
  rewrite (py_index_in_range SPANISH_WEEKDAYS (weekday d) "")
    by (cbn [List.length SPANISH_WEEKDAYS]; lia).
  cbn [obind].
  rewrite (py_index_in_range SPANISH_MONTHS (month d - 1) "")
    by (cbn [List.length SPANISH_MONTHS]; lia).
  reflexivity.
Qed.

(** The weekday moves by one with the day. *)
Lemma weekday_next_day d :
  valid_date d = true -> weekday (next_day d) = (weekday d + 1) mod 7.
Proof.
  intros Hv. unfold weekday. rewrite toordinal_next_day by assumption.
  Z.to_euclidean_division_equations; lia.
Qed.

(** ** The font *)

Section Font.

Variable host : Host.

Lemma register_from_spec candidates st :
  register_from host candidates st
  = match find (usable host) candidates with
    | Some c => (Ok (fst c), add_font st (fst c))
    | None => (Ok FALLBACK_FONT, st)
    end.
Proof.
  induction candidates as [|[name path] rest IH]; [reflexivity|].
  cbn [register_from find]. unfold usable at 1. cbn [fst snd].
  unfold bind at 1. unfold try_except.
  destruct (os_path_exists host path) eqn:Ex; cbn [andb].
  - unfold bind at 1. unfold registerFont.
    destruct (load_ttf host name path) as [e|] eqn:El; cbn [is_none].
    + unfold ret at 1. exact IH.
    + reflexivity.
  - unfold ret at 1. exact IH.
Qed.

Lemma register_readable_font_spec st :
  register_readable_font host st
  = match find (usable host) FONT_CANDIDATES with
    | Some c => (Ok (resolved_font host), add_font st (resolved_font host))
    | None => (Ok (resolved_font host), st)
    end.
Proof.
  unfold register_readable_font, resolved_font. rewrite register_from_spec.
  destruct (find (usable host) FONT_CANDIDATES); reflexivity.
Qed.

Lemma register_readable_font_returns st :
fst (register_readable_font host st) = Ok (resolved_font host).
Proof.
rewrite register_readable_font_spec.
destruct (find (usable host) FONT_CANDIDATES); reflexivity.
Qed.

Lemma mem_head name l : canvas.mem name (name :: l) = true.
Proof. unfold canvas.mem. cbn [existsb]. rewrite String.eqb_refl. reflexivity. Qed.

(** Whatever the host, the font that was resolved can be set. *)
Lemma resolved_font_known st :
  canvas.font_known (snd (register_readable_font host st)) (resolved_font host)
  = true.
Proof.
  rewrite register_readable_font_spec. unfold resolved_font.
  destruct (find (usable host) FONT_CANDIDATES) as [c|]; cbn [snd].
  - unfold canvas.font_known, add_font. cbn [fonts]. rewrite mem_head.
    apply orb_true_r.
  - reflexivity.
Qed.

End Font.

(** ** One page *)

Ltac run_bind := unfold bind at 1; cbv beta iota.

Section Page.

Variable host : Host.

Lemma draw_centered_text_top_ok text page_w page_h font size top_offset st :
  canvas.font_known st font = true ->
  Z.abs top_offset < float_max_int ->
  draw_centered_text_top host text page_w page_h font size top_offset st
  = (Ok tt,
     canvas.set_page st
       (page st
        ++ [SetFont font size;
            DrawString (centered host page_w text font size)
              (page_h - inject_Z top_offset)%Q text])
       (pages st)).
Proof.
  intros Hk Hr. unfold draw_centered_text_top. run_bind.
  unfold canvas.setFont. rewrite Hk. unfold canvas.emit at 1.
  cbv beta iota zeta. run_bind. unfold lift at 1.
  rewrite float_of_int_ok by assumption. cbv beta iota.
  unfold canvas.drawString, canvas.emit, centered.
  cbn [page pages canvas.set_page fonts filename saved stdout].
  unfold canvas.set_page. cbn [page pages fonts filename saved stdout].
  rewrite <- app_assoc. reflexivity.
Qed.

(** A top offset outside the range of the floats: the font is set and
    the text is not drawn. *)
Lemma draw_centered_text_top_overflow text page_w page_h font size top_offset
    st :
  canvas.font_known st font = true ->
  float_max_int <= Z.abs top_offset ->
  draw_centered_text_top host text page_w page_h font size top_offset st
  = (Raise OverflowError,
     canvas.set_page st (page st ++ [SetFont font size]) (pages st)).
Proof.
  intros Hk Hr. unfold draw_centered_text_top. run_bind.
  unfold canvas.setFont. rewrite Hk. unfold canvas.emit at 1.
  cbv beta iota zeta. run_bind. unfold lift at 1.
  rewrite float_of_int_overflow by assumption. reflexivity.
Qed.

Lemma draw_page_number_ok page_w font number size bottom_margin st :
  canvas.font_known st font = true ->
  draw_page_number host page_w font number size bottom_margin st
  = (Ok tt,
     canvas.set_page st
       (page st
        ++ [SetFont font size;
            DrawString (centered host page_w (py_str number) font size)
              (inject_Z bottom_margin) (py_str number)])
       (pages st)).
Proof.
  intros Hk. unfold draw_page_number. cbv zeta. run_bind.
  unfold canvas.setFont. rewrite Hk. unfold canvas.emit at 1. cbv beta iota.
  unfold canvas.drawString, canvas.emit, centered.
  cbn [page pages canvas.set_page fonts filename saved stdout].
  unfold canvas.set_page. cbn [page pages fonts filename saved stdout].
  rewrite <- app_assoc. reflexivity.
Qed.

Variables (gfuel : nat) (font : string) (spacing size : Z) (numbered : bool)
          (top_margin : Z).

(** A turn of the loop after its grid is drawn: the page is finished
    with [page_ops], and the turn ends as the step to the next day
    does. *)
Lemma agenda_page_drawn pn cur st :
  draw_grid gfuel (fst A4) (snd A4) spacing top_margin st
  = (Ok tt,
     canvas.set_page st
       (page st ++ grid_ops (fst A4) (snd A4) spacing top_margin) (pages st)) ->
  Z.abs (top_margin - 30) < float_max_int ->
  valid_date cur = true ->
  canvas.font_known st font = true ->
  page st = [] ->
  agenda_page host gfuel font spacing size numbered top_margin (pn, cur) st
  = (obind (add_one_day cur) (fun next => Ok (pn + 1, next)),
     canvas.set_page st []
       (pages st
        ++ [page_ops host font spacing size numbered top_margin pn cur])).
Proof.
  intros Hgrid Hr Hv Hk Hp. unfold agenda_page.
  change A4 with (fst A4, snd A4). cbv beta iota.
  run_bind. rewrite Hgrid. cbv beta iota.
  run_bind. unfold lift at 1. rewrite format_date_spanish_ok by assumption.
  cbv beta iota.
  run_bind. rewrite draw_centered_text_top_ok by assumption. cbv beta iota.
  run_bind.
  destruct numbered.
  - rewrite draw_page_number_ok by (rewrite font_known_set_page; assumption).
    cbv beta iota. run_bind. unfold canvas.showPage at 1. cbv beta iota.
    run_bind. unfold lift at 1. rewrite Hp.
    destruct (add_one_day cur); cbn [obind];
      unfold ret, page_ops, header_ops, number_ops;
    cbn [page pages canvas.set_page fonts filename saved stdout app];
    rewrite <- ?app_assoc.
    all: reflexivity.
  - unfold ret at 1. 
    cbv beta iota. run_bind. unfold canvas.showPage at 1. cbv beta iota.
    run_bind. unfold lift at 1. rewrite Hp.
    destruct (add_one_day cur); cbn [obind];
      unfold ret, page_ops, header_ops, number_ops;
    cbn [page pages canvas.set_page fonts filename saved stdout app];
    rewrite <- ?app_assoc; rewrite ?app_nil_r; reflexivity.
Qed.


Lemma agenda_page_ok pn cur st :
  0 < spacing ->
  margin_in_range top_margin ->
  (grid_fuel (fst A4) (snd A4) spacing top_margin <= gfuel)%nat ->
  valid_date cur = true ->
  canvas.font_known st font = true ->
  page st = [] ->
  agenda_page host gfuel font spacing size numbered top_margin (pn, cur) st
  = (obind (add_one_day cur) (fun next => Ok (pn + 1, next)),
     canvas.set_page st []
       (pages st
        ++ [page_ops host font spacing size numbered top_margin pn cur])).
Proof.
  intros Hs [Hm Hm30] Hf Hv Hk Hp. apply agenda_page_drawn; try assumption.
  apply draw_grid_ok; assumption.
Qed.

(** The loop from a day with [S n] days left in its year: it finishes
    the [S n] pages, and then stops at 1 January or, in the year 9999,
    fails in the step past 31 December. *)
Lemma agenda_loop_run n :
  forall fuel pn cur st,
    0 < spacing ->
    margin_in_range top_margin ->
    (grid_fuel (fst A4) (snd A4) spacing top_margin <= gfuel)%nat ->
    valid_date cur = true ->
    canvas.font_known st font = true ->
    page st = [] ->
    days_left cur = Z.of_nat (S n) ->
    (S n < fuel)%nat ->
    while fuel (fun s => datetime.leb (snd s) (mk_date (year cur) 12 31))
      (agenda_page host gfuel font spacing size numbered top_margin)
      (pn, cur) st
    = ((if year cur =? 9999 then Raise OverflowError
        else Ok (pn + Z.of_nat (S n), mk_date (year cur + 1) 1 1)),
       canvas.set_page st []
         (pages st
          ++ agenda_pages host font spacing size numbered top_margin
               pn cur (S n))).
Proof.
  induction n as [|n IH]; intros fuel pn cur st Hs Hrange Hg Hv Hk Hp Hl Hf.
  - destruct fuel as [|[|fuel]]; try lia.
    destruct (days_left_one cur Hv Hl) as [Hm Hd].
    cbn [while snd]. rewrite leb_end_of_year by assumption.
    run_bind. rewrite agenda_page_ok by assumption.
    rewrite add_one_day_spec by assumption.
    change (Z.of_nat 1) with 1 in Hl. rewrite Hl, Z.eqb_refl, andb_true_r.
    destruct (year cur =? 9999); cbn [obind]; [reflexivity|].
    destruct cur as [y m d]. cbn [year month day] in *. subst m d.
    rewrite next_day_last. cbn [while snd]. rewrite leb_new_year. reflexivity.
  - destruct fuel as [|fuel]; try lia.
    assert (Hl1 : 1 < days_left cur) by lia.
    destruct (next_day_same_year cur Hv Hl1) as (Hvn & Hyr & Hln).
    cbn [while snd]. rewrite leb_end_of_year by assumption.
    run_bind. rewrite agenda_page_ok by assumption.
    rewrite add_one_day_spec by assumption.
    replace (days_left cur =? 1) with false by (symmetry; apply Z.eqb_neq; lia).
    rewrite andb_false_r. cbn [obind].
    specialize (IH fuel (pn + 1) (next_day cur)
                  (canvas.set_page st []
                     (pages st
                      ++ [page_ops host font spacing size numbered
                            top_margin pn cur]))
                  Hs Hrange Hg Hvn Hk eq_refl).
    rewrite Hyr in IH. rewrite IH by lia.
    cbn [agenda_pages page pages canvas.set_page].
    rewrite set_page_twice, <- app_assoc. cbn [app].
    destruct (year cur =? 9999); [reflexivity|].
    do 3 f_equal. lia.
Qed.

End Page.

(** ** What a run leaves alone *)

Lemma keeps_ret {A : Type} (P : state -> Prop) (a : A) : keeps P (ret a).
Proof. intros st H. exact H. Qed.

Lemma keeps_lift {A : Type} (P : state -> Prop) (o : outcome A) :
  keeps P (lift o).
Proof. intros st H. exact H. Qed.

Lemma keeps_bind {A B : Type} (P : state -> Prop) (m : M A) (k : A -> M B) :
  keeps P m -> (forall a, keeps P (k a)) -> keeps P (bind m k).
Proof.
  intros Hm Hk st H. unfold bind. specialize (Hm st H).
  destruct (m st) as [[a | e |] st']; cbn [snd] in *; try exact Hm.
  apply Hk. exact Hm.
Qed.

Lemma keeps_while {T : Type} (P : state -> Prop) fuel (cond : T -> bool)
    (body : T -> M T) :
  (forall s, keeps P (body s)) -> forall s, keeps P (while fuel cond body s).
Proof.
  intros Hb. induction fuel as [|fuel IH]; intros s; cbn [while].
  - intros st H. exact H.
  - destruct (cond s); [|apply keeps_ret].
    apply keeps_bind; [apply Hb | exact IH].
Qed.

Lemma keeps_try_except {A : Type} (P : state -> Prop) (m h : M A) :
  keeps P m -> keeps P h -> keeps P (try_except m h).
Proof.
  intros Hm Hh st H. unfold try_except. specialize (Hm st H).
  destruct (m st) as [[a | e |] st']; cbn [snd] in *; try exact Hm.
  apply Hh. exact Hm.
Qed.

Section KeepsStdout.

Variable out : list string.

Lemma keeps_emit o : keeps (printed out) (canvas.emit o).
Proof. intros st H. exact H. Qed.

Lemma keeps_setFont name size : keeps (printed out) (canvas.setFont name size).
Proof.
  intros st H. unfold canvas.setFont.
  destruct (canvas.font_known st name); exact H.
Qed.

Lemma keeps_showPage : keeps (printed out) canvas.showPage.
Proof. intros st H. exact H. Qed.

Lemma keeps_draw_grid fuel page_w page_h spacing top_margin :
  keeps (printed out) (draw_grid fuel page_w page_h spacing top_margin).
Proof.
  unfold draw_grid, vertical_lines, horizontal_lines.
  repeat first
    [ apply keeps_bind; [|intros ?]
    | apply keeps_while; intros ?
    | apply keeps_emit
    | apply keeps_lift
    | apply keeps_ret ].
Qed.

Lemma keeps_agenda_page host gfuel font spacing size numbered top_margin s :
  keeps (printed out)
    (agenda_page host gfuel font spacing size numbered top_margin s).
Proof.
  destruct s as [pn cur]. unfold agenda_page.
  change A4 with (fst A4, snd A4). cbv beta iota.
  unfold draw_centered_text_top, draw_page_number. cbv zeta.
  destruct numbered;
    repeat first
      [ apply keeps_draw_grid
      | apply keeps_bind; [|intros ?]
      | apply keeps_lift
      | apply keeps_setFont
      | apply keeps_emit
      | apply keeps_showPage
      | apply keeps_ret ].
Qed.

Lemma keeps_agenda_loop host fuel font spacing size numbered top_margin end_ s :
  keeps (printed out)
    (agenda_loop host fuel font spacing size numbered top_margin end_ s).
Proof.
  unfold agenda_loop. apply keeps_while. intros s'. apply keeps_agenda_page.
Qed.

End KeepsStdout.

(** ** Runs that do not finish *)

Lemma same_document_refl st : same_document st st.
Proof. repeat split. Qed.

Lemma same_document_trans st1 st2 st3 :
  same_document st1 st2 -> same_document st2 st3 -> same_document st1 st3.
Proof.
  unfold same_document. intros (H1 & H2 & H3 & H7) (H4 & H5 & H6 & H8).
  repeat split; congruence.
Qed.

Lemma same_document_page st p : same_document st (canvas.set_page st p (pages st)).
Proof. repeat split. Qed.

Section AnyFuel.

Variable mk : Z -> op.
Variable bound : Q.
Variable s : Z.

(** A loop of [draw_grid] changes the page being drawn only. *)
Lemma counted_loop_frame fuel :
  forall x st,
    same_document st
      (snd (while fuel (fun x => Qle_bool (inject_Z x) bound)
              (fun x => canvas.emit (mk x) ;; ret (x + s)) x st)).
Proof.
  induction fuel as [|fuel IH]; intros x st; [apply same_document_refl|].
  cbn [while]. destruct (Qle_bool (inject_Z x) bound).
  - unfold bind at 1. unfold bind at 1.
    unfold canvas.emit at 1. unfold ret at 1.
    eapply same_document_trans; [|apply IH]. apply same_document_page.
  - apply same_document_refl.
Qed.

(** With too little fuel a loop of [draw_grid] is still running. *)
Lemma counted_loop_short :
  0 < s ->
  forall fuel x st,
    (fuel <= steps bound x s)%nat ->
    fst (while fuel (fun x => Qle_bool (inject_Z x) bound)
           (fun x => canvas.emit (mk x) ;; ret (x + s)) x st)
    = OutOfFuel.
Proof.
  intros Hs. induction fuel as [|fuel IH]; intros x st Hge; [reflexivity|].
  cbn [while]. rewrite cursor_test.
  destruct (x <=? Qfloor bound) eqn:E.
  - apply Z.leb_le in E. rewrite steps_succ in Hge by assumption.
    unfold bind at 1. unfold bind at 1.
    unfold canvas.emit at 1. unfold ret at 1. apply IH. lia.
  - apply Z.leb_gt in E. rewrite steps_zero in Hge by assumption. lia.
Qed.

End AnyFuel.

Lemma vertical_lines_short fuel page_w page_h spacing st :
  0 < spacing -> (fuel <= steps page_w 0 spacing)%nat ->
  fst (vertical_lines fuel page_w page_h spacing st) = OutOfFuel.
Proof.
  intros Hs Hf. unfold vertical_lines.
  exact (counted_loop_short (vertical page_h) page_w spacing Hs fuel 0 st Hf).
Qed.

Lemma horizontal_lines_short fuel page_w stop_y spacing st :
  0 < spacing -> (fuel <= steps stop_y 0 spacing)%nat ->
  fst (horizontal_lines fuel page_w stop_y spacing st) = OutOfFuel.
Proof.
  intros Hs Hf. unfold horizontal_lines.
  exact (counted_loop_short (horizontal page_w) stop_y spacing Hs fuel 0 st Hf).
Qed.

Lemma vertical_lines_frame fuel page_w page_h spacing st :
  same_document st (snd (vertical_lines fuel page_w page_h spacing st)).
Proof.
  unfold vertical_lines.
  exact (counted_loop_frame (vertical page_h) page_w spacing fuel 0 st).
Qed.

Lemma horizontal_lines_frame fuel page_w stop_y spacing st :
  same_document st (snd (horizontal_lines fuel page_w stop_y spacing st)).
Proof.
  unfold horizontal_lines.
  exact (counted_loop_frame (horizontal page_w) stop_y spacing fuel 0 st).
Qed.

Lemma draw_grid_frame fuel page_w page_h spacing top_margin st :
  same_document st (snd (draw_grid fuel page_w page_h spacing top_margin st)).
Proof.
  unfold draw_grid.
  unfold bind at 1. unfold canvas.setLineWidth, canvas.emit at 1.
  unfold bind at 1. unfold canvas.setStrokeColorRGB, canvas.emit at 1.
  unfold bind at 1.
  match goal with
  | |- context [vertical_lines fuel page_w page_h spacing ?s0] =>
      pose proof (vertical_lines_frame fuel page_w page_h spacing s0) as Hv;
      destruct (vertical_lines fuel page_w page_h spacing s0) as [[x | e |] s1]
  end; cbn [snd] in *.
  2, 3: eapply same_document_trans; [|exact Hv]; repeat split.
  unfold bind at 1. unfold lift at 1.
  destruct (float_of_int top_margin) as [margin | e |]; cbv beta iota zeta;
    cbn [snd].
  2, 3: eapply same_document_trans; [|exact Hv]; repeat split.
  unfold bind at 1.
  match goal with
  | |- context [horizontal_lines fuel page_w ?b spacing s1] =>
      pose proof (horizontal_lines_frame fuel page_w b spacing s1) as Hh;
      destruct (horizontal_lines fuel page_w b spacing s1) as [[y | e |] s2]
  end; cbn [snd] in *.
  all: eapply same_document_trans; [|exact Hh].
  all: eapply same_document_trans; [|exact Hv]; repeat split.
Qed.

(** [draw_grid] returns with [grid_ops] drawn, or it is still running,
    or it raises for a top margin outside the range of the floats. *)
Lemma draw_grid_any fuel page_w page_h spacing top_margin st :
  (0 <= page_w)%Q ->
  (Z.abs top_margin < float_max_int
   /\ draw_grid fuel page_w page_h spacing top_margin st
      = (Ok tt,
         canvas.set_page st
           (page st ++ grid_ops page_w page_h spacing top_margin) (pages st)))
  \/ fst (draw_grid fuel page_w page_h spacing top_margin st) = OutOfFuel
  \/ (float_max_int <= Z.abs top_margin
      /\ fst (draw_grid fuel page_w page_h spacing top_margin st)
         = Raise OverflowError).
Proof.
  intros Hw. destruct (Z.lt_ge_cases 0 spacing) as [Hs | Hs];
    [|right; left; apply draw_grid_stuck; assumption].
  destruct (Nat.lt_ge_cases (steps page_w 0 spacing) fuel) as [H1 | H1].
  - destruct (Z.lt_ge_cases (Z.abs top_margin) float_max_int) as [Hm | Hm].
    + destruct (Nat.le_gt_cases (grid_fuel page_w page_h spacing top_margin)
                  fuel) as [Hf | Hf];
        [left; split; [exact Hm | apply draw_grid_ok; assumption]|].
      right. left. unfold grid_fuel in Hf. unfold draw_grid.
      unfold bind at 1. unfold canvas.setLineWidth, canvas.emit at 1.
      unfold bind at 1. unfold canvas.setStrokeColorRGB, canvas.emit at 1.
      unfold bind at 1. rewrite vertical_lines_ok by assumption.
      unfold bind at 1. unfold lift at 1.
      rewrite float_of_int_ok by assumption. cbv beta iota zeta.
      unfold bind at 1.
      match goal with
      | |- context [horizontal_lines fuel page_w ?b spacing ?s1] =>
          pose proof (horizontal_lines_short fuel page_w b spacing s1 Hs) as Hh;
          destruct (horizontal_lines fuel page_w b spacing s1) as [[y | e |] s2]
      end; cbn [fst] in *; try reflexivity; specialize (Hh ltac:(lia));
        discriminate.
    + right. right. split; [exact Hm|].
      rewrite draw_grid_overflow by assumption. reflexivity.
  - right. left. unfold draw_grid.
    unfold bind at 1. unfold canvas.setLineWidth, canvas.emit at 1.
    unfold bind at 1. unfold canvas.setStrokeColorRGB, canvas.emit at 1.
    unfold bind at 1.
    match goal with
    | |- context [vertical_lines fuel page_w page_h spacing ?s0] =>
        pose proof (vertical_lines_short fuel page_w page_h spacing s0 Hs H1)
          as Hv;
        destruct (vertical_lines fuel page_w page_h spacing s0) as [[x | e |] s1]
    end; cbn [fst] in *; try discriminate; reflexivity.
Qed.

Lemma while_step {T : Type} fuel (cond : T -> bool) (body : T -> M T) s st :
  while (S fuel) cond body s st
  = if cond s
    then match body s st with
         | (Ok s', st') => while fuel cond body s' st'
         | (Raise e, st') => (Raise e, st')
         | (OutOfFuel, st') => (OutOfFuel, st')
         end
    else (Ok s, st).
Proof. cbn [while]. destruct (cond s); reflexivity. Qed.

Lemma A4_width_nonneg : (0 <= fst A4)%Q.
Proof. unfold A4, Qle. cbn. lia. Qed.

Section Invariant.

Variables (host : Host) (gfuel : nat) (font : string) (spacing size : Z)
          (numbered : bool) (top_margin : Z).

(** A turn of the loop finishes its page, or it does not return and
    leaves the finished pages as they were. *)
Lemma agenda_page_any pn cur st :
  valid_date cur = true -> page st = [] ->
  agenda_page host gfuel font spacing size numbered top_margin (pn, cur) st
  = (obind (add_one_day cur) (fun next => Ok (pn + 1, next)),
     canvas.set_page st []
       (pages st
        ++ [page_ops host font spacing size numbered top_margin pn cur]))
  \/ ((forall s',
         fst (agenda_page host gfuel font spacing size numbered top_margin
                (pn, cur) st) <> Ok s')
      /\ same_document st
           (snd (agenda_page host gfuel font spacing size numbered
                   top_margin (pn, cur) st))).
Proof.
  intros Hv Hp.
  pose proof (draw_grid_frame gfuel (fst A4) (snd A4) spacing top_margin st)
    as Hframe.
  destruct (draw_grid_any gfuel (fst A4) (snd A4) spacing top_margin st
              A4_width_nonneg) as [[Hm Hg] | Hg].
  - destruct (canvas.font_known st font) eqn:Hk.
    + destruct (Z.lt_ge_cases (Z.abs (top_margin - 30)) float_max_int)
        as [Hm30 | Hm30]; [left; apply agenda_page_drawn; assumption|].
      right.
      assert (Heq :
        agenda_page host gfuel font spacing size numbered top_margin
          (pn, cur) st
        = (Raise OverflowError,
           canvas.set_page st
             ((page st ++ grid_ops (fst A4) (snd A4) spacing top_margin)
              ++ [SetFont font size])
             (pages st))).
      { unfold agenda_page.
        change A4 with (fst A4, snd A4). cbv beta iota.
        run_bind. rewrite Hg. cbv beta iota.
        run_bind. unfold lift at 1.
        rewrite format_date_spanish_ok by assumption. cbv beta iota.
        run_bind.
        rewrite draw_centered_text_top_overflow by assumption.
        reflexivity. }
      rewrite Heq. cbn [fst snd].
      split; [intros s'; discriminate | repeat split].
    + right.
      assert (Heq :
        agenda_page host gfuel font spacing size numbered top_margin
          (pn, cur) st
        = (Raise KeyError,
           canvas.set_page st
             (page st ++ grid_ops (fst A4) (snd A4) spacing top_margin)
             (pages st))).
      { unfold agenda_page.
        change A4 with (fst A4, snd A4). cbv beta iota.
        run_bind. rewrite Hg. cbv beta iota.
        run_bind. unfold lift at 1.
        rewrite format_date_spanish_ok by assumption. cbv beta iota.
        run_bind. unfold draw_centered_text_top. run_bind.
        unfold canvas.setFont at 1. rewrite font_known_set_page, Hk.
        reflexivity. }
      rewrite Heq. cbn [fst snd].
      split; [intros s'; discriminate | repeat split].
  - right.
    destruct (draw_grid gfuel (fst A4) (snd A4) spacing top_margin st)
      as [[[] | e |] s1] eqn:Hd; cbn [fst snd] in *.
    + destruct Hg as [Hg | [_ Hg]]; discriminate.
    + assert (Heq :
        agenda_page host gfuel font spacing size numbered top_margin
          (pn, cur) st
        = (Raise e, s1)).
      { unfold agenda_page.
        change A4 with (fst A4, snd A4). cbv beta iota. run_bind.
        rewrite Hd. reflexivity. }
      rewrite Heq. cbn [fst snd].
      split; [intros s'; discriminate | exact Hframe].
    + assert (Heq :
        agenda_page host gfuel font spacing size numbered top_margin
          (pn, cur) st
        = (OutOfFuel, s1)).
      { unfold agenda_page.
        change A4 with (fst A4, snd A4). cbv beta iota. run_bind.
        rewrite Hd. reflexivity. }
      rewrite Heq. cbn [fst snd].
      split; [intros s'; discriminate | exact Hframe].
Qed.

(** Every state of the loop, whatever the fuel: some [m] pages are
    finished, they are the pages of the first [m] days with the numbers
    from [pn] on, and the loop has returned only after the last day of
    the year. *)
Lemma agenda_loop_any fuel :
  forall pn cur st,
    valid_date cur = true -> page st = [] ->
    exists m : nat,
      (m <= Z.to_nat (days_left cur))%nat
      /\ pages (snd (while fuel
                       (fun s => datetime.leb (snd s) (mk_date (year cur) 12 31))
                       (agenda_page host gfuel font spacing size numbered
                          top_margin)
                       (pn, cur) st))
         = (pages st
            ++ agenda_pages host font spacing size numbered top_margin pn cur m)%list
      /\ saved (snd (while fuel
                       (fun s => datetime.leb (snd s) (mk_date (year cur) 12 31))
                       (agenda_page host gfuel font spacing size numbered
                          top_margin)
                       (pn, cur) st))
         = saved st
      /\ filename (snd (while fuel
                       (fun s => datetime.leb (snd s) (mk_date (year cur) 12 31))
                       (agenda_page host gfuel font spacing size numbered
                          top_margin)
                       (pn, cur) st))
         = filename st
      /\ forall s',
           fst (while fuel
                  (fun s => datetime.leb (snd s) (mk_date (year cur) 12 31))
                  (agenda_page host gfuel font spacing size numbered top_margin)
                  (pn, cur) st) = Ok s' ->
           m = Z.to_nat (days_left cur)
           /\ s' = (pn + Z.of_nat m, mk_date (year cur + 1) 1 1)
           /\ year cur <> 9999
           /\ page (snd (while fuel
                       (fun s => datetime.leb (snd s) (mk_date (year cur) 12 31))
                       (agenda_page host gfuel font spacing size numbered
                          top_margin)
                       (pn, cur) st)) = [].
Proof.
  induction fuel as [|fuel IH]; intros pn cur st Hv Hp.
  - exists 0%nat. cbn [while fst snd agenda_pages]. rewrite app_nil_r.
    repeat split; try lia. all: discriminate.
  - pose proof (days_left_pos cur Hv) as Hpos.
    rewrite while_step. cbn [snd]. rewrite leb_end_of_year by assumption.
    destruct (agenda_page_any pn cur st Hv Hp) as [Hpage | [Hno Hsame]].
    + rewrite Hpage. rewrite add_one_day_spec by assumption.
      destruct (days_left cur =? 1) eqn:El.
      * apply Z.eqb_eq in El. destruct (days_left_one cur Hv El) as [Hm Hd].
        rewrite andb_true_r. destruct (year cur =? 9999) eqn:Ey; cbn [obind].
        -- exists 1%nat. cbn [fst snd agenda_pages pages canvas.set_page saved filename].
           repeat split; try lia. all: discriminate.
        -- apply Z.eqb_neq in Ey. exists 1%nat.
           destruct cur as [y m d]. cbn [year month day] in *. subst m d.
           rewrite next_day_last.
           destruct fuel as [|fuel].
           ++ cbn [while fst snd agenda_pages pages canvas.set_page saved filename].
              repeat split; try lia. all: discriminate.
           ++ rewrite while_step. cbn [snd]. rewrite leb_new_year.
              cbn [fst snd agenda_pages pages canvas.set_page saved page filename].
              split; [lia|]. split; [reflexivity|]. split; [reflexivity|].
              split; [reflexivity|]. intros s' Hs'. injection Hs' as <-.
              repeat split; try lia.
      * apply Z.eqb_neq in El. rewrite andb_false_r. cbn [obind].
        assert (Hl1 : 1 < days_left cur) by lia.
        destruct (next_day_same_year cur Hv Hl1) as (Hvn & Hyr & Hln).
        destruct (IH (pn + 1) (next_day cur)
                    (canvas.set_page st []
                       (pages st
                        ++ [page_ops host font spacing size numbered
                              top_margin pn cur]))
                    Hvn eq_refl) as (m & Hm & Hpages & Hsaved & Hfile & Hok).
        rewrite Hyr in Hpages, Hsaved, Hfile, Hok. exists (S m).
        split; [lia|]. split.
        { rewrite Hpages. cbn [pages canvas.set_page agenda_pages].
          rewrite <- app_assoc. reflexivity. }
        split; [exact Hsaved|]. split; [exact Hfile|].
        intros s' Hs'. destruct (Hok s' Hs') as (Hm' & Hs'' & Hy & Hpg).
        repeat split; try assumption; try lia.
        rewrite Hs''. f_equal. lia.
    + destruct (agenda_page host gfuel font spacing size numbered top_margin
                  (pn, cur) st) as [[s1 | e |] st1]; cbn [fst snd] in *.
      * exfalso. apply (Hno s1). reflexivity.
      * exists 0%nat. destruct Hsame as (H1 & H2 & H3 & H4).
        cbn [agenda_pages]. rewrite app_nil_r.
        repeat split; try lia; try assumption. all: discriminate.
      * exists 0%nat. destruct Hsame as (H1 & H2 & H3 & H4).
        cbn [agenda_pages]. rewrite app_nil_r.
        repeat split; try lia; try assumption. all: discriminate.
Qed.

End Invariant.

(** ** The pipeline *)

Lemma end_of_year_ok d :
  valid_date d = true -> end_of_year d = Ok (mk_date (year d) 12 31).
Proof.
  intros Hv. pose proof (valid_date_bounds d Hv) as (Hy & Hm & Hd).
  unfold end_of_year, datetime.new.
  rewrite valid_date_intro; [reflexivity | cbn [year]; lia | cbn [month]; lia |].
  cbn [year month day]. unfold _days_in_month. tables. lia.
Qed.

Lemma bind_same_start {A B : Type} (m m' : M A) (k : A -> M B) st :
  m st = m' st -> bind m k st = bind m' k st.
Proof. unfold bind. intros ->. reflexivity. Qed.


Section Build.

Variable host : Host.

Lemma register_readable_font_ok st :
  register_readable_font host st
  = (Ok (resolved_font host), snd (register_readable_font host st))
  /\ saved (snd (register_readable_font host st)) = saved st.
Proof.
  rewrite register_readable_font_spec.
  destruct (find (usable host) FONT_CANDIDATES); split; reflexivity.
Qed.

Lemma register_readable_font_stdout st :
  stdout (snd (register_readable_font host st)) = stdout st.
Proof.
  rewrite register_readable_font_spec.
  destruct (find (usable host) FONT_CANDIDATES); reflexivity.
Qed.

Variables (fuel : nat) (output_path : string) (start : date)
          (spacing size : Z) (numbered : bool) (top_margin : Z).

Lemma loop_start_facts st :
  page (loop_start host output_path st) = []
  /\ pages (loop_start host output_path st) = []
  /\ filename (loop_start host output_path st) = output_path
  /\ saved (loop_start host output_path st) = saved st
  /\ stdout (loop_start host output_path st) = stdout st
  /\ canvas.font_known (loop_start host output_path st) (resolved_font host)
     = true.
Proof.
  unfold loop_start, canvas.Canvas. cbn [snd page pages filename saved stdout].
  repeat split.
  - apply register_readable_font_ok.
  - apply register_readable_font_stdout.
  - exact (resolved_font_known host st).
Qed.

(** A run from a valid start date is its loop, from [loop_start], and then
    [finish]. *)
Lemma build_agenda_pdf_steps st :
  valid_date start = true ->
  build_agenda_pdf host fuel output_path (Some start) spacing size numbered
    top_margin st
  = match agenda_loop host fuel (resolved_font host) spacing size numbered
            top_margin (mk_date (year start) 12 31) (1, start)
            (loop_start host output_path st) with
    | (Ok _, st') => finish host output_path st'
    | (Raise e, st') => (Raise e, st')
    | (OutOfFuel, st') => (OutOfFuel, st')
    end.
Proof.
  intros Hv. unfold build_agenda_pdf.
  run_bind. unfold ret at 1. cbv beta iota.
  run_bind. unfold lift at 1. rewrite end_of_year_ok by assumption.
  cbv beta iota. run_bind.
  destruct (register_readable_font_ok st) as [Hreg _]. rewrite Hreg.
  cbv beta iota. run_bind. unfold canvas.Canvas at 1. cbv beta iota.
  run_bind. unfold loop_start, canvas.Canvas. cbn [snd].
  destruct (agenda_loop host fuel (resolved_font host) spacing size numbered
              top_margin (mk_date (year start) 12 31) (1, start) _)
    as [[s' | e |] st']; reflexivity.
Qed.

(** [finish] on a canvas with no open page: the result is the host's. *)
Lemma finish_spec st :
  page st = [] ->
  pages (snd (finish host output_path st)) = pages st
  /\ page (snd (finish host output_path st)) = []
  /\ match write_pdf host (filename st) (pages st) with
     | Written =>
         saved (snd (finish host output_path st))
         = Some (filename st, pages st)
         /\ match stdout_write host (done_line output_path) with
            | None =>
                fst (finish host output_path st) = Ok tt
                /\ stdout (snd (finish host output_path st))
                   = (stdout st ++ [done_line output_path])%list
            | Some e =>
                fst (finish host output_path st) = Raise e
                /\ stdout (snd (finish host output_path st)) = stdout st
            end
     | WriteFailed e leftover =>
         fst (finish host output_path st) = Raise e
         /\ stdout (snd (finish host output_path st)) = stdout st
         /\ saved (snd (finish host output_path st))
            = match leftover with
              | Some content => Some (filename st, content)
              | None => saved st
              end
     end.
Proof.
  intros Hp. unfold finish, bind, canvas.save, print. rewrite Hp.
  cbv zeta.
  destruct (write_pdf host (filename st) (pages st)) as [|e leftover];
    [destruct (stdout_write host (done_line output_path)) as [e|]|];
    cbn [fst snd pages page saved stdout]; repeat split.
Qed.

(** Every run from a valid start date, whatever the fuel: the canvas
    holds the pages of the first [m] days, numbered from 1; a run that
    returns has drawn all the days that are left and has saved them; a run
    in the year 9999 does not return and saves nothing. *)
Lemma build_agenda_pdf_any st :
  valid_date start = true ->
  exists m : nat,
    (m <= Z.to_nat (days_left start))%nat
    /\ pages (snd (build_agenda_pdf host fuel output_path (Some start) spacing
                     size numbered top_margin st))
       = agenda_pages host (resolved_font host) spacing size numbered
           top_margin 1 start m
    /\ (fst (build_agenda_pdf host fuel output_path (Some start) spacing size
               numbered top_margin st) = Ok tt ->
        m = Z.to_nat (days_left start)
        /\ year start <> 9999
        /\ saved (snd (build_agenda_pdf host fuel output_path (Some start)
                         spacing size numbered top_margin st))
           = Some (output_path,
                    agenda_pages host (resolved_font host) spacing size
                      numbered top_margin 1 start m)
        /\ page (snd (build_agenda_pdf host fuel output_path (Some start)
                        spacing size numbered top_margin st)) = []
        /\ stdout (snd (build_agenda_pdf host fuel output_path (Some start)
                          spacing size numbered top_margin st))
           = (stdout st ++ [done_line output_path])%list
        /\ write_pdf host output_path
             (agenda_pages host (resolved_font host) spacing size numbered
                top_margin 1 start m) = Written
        /\ stdout_write host (done_line output_path) = None)
    /\ (year start = 9999 ->
        fst (build_agenda_pdf host fuel output_path (Some start) spacing size
               numbered top_margin st) <> Ok tt
        /\ saved (snd (build_agenda_pdf host fuel output_path (Some start)
                         spacing size numbered top_margin st))
           = saved st)
    /\ (fst (build_agenda_pdf host fuel output_path (Some start) spacing size
               numbered top_margin st) = OutOfFuel ->
        saved (snd (build_agenda_pdf host fuel output_path (Some start)
                      spacing size numbered top_margin st))
        = saved st
        /\ stdout (snd (build_agenda_pdf host fuel output_path (Some start)
                          spacing size numbered top_margin st))
           = stdout st).
Proof.
  intros Hv. rewrite build_agenda_pdf_steps by assumption.
  destruct (loop_start_facts st) as (Hp0 & Hps0 & Hfile0 & Hsaved0 & Hout0 & _).
  pose proof (keeps_agenda_loop (stdout st) host fuel (resolved_font host)
                spacing size numbered top_margin (mk_date (year start) 12 31)
                (1, start) (loop_start host output_path st) Hout0) as Hout.
  unfold printed in Hout. unfold agenda_loop in *.
  destruct (agenda_loop_any host fuel (resolved_font host) spacing size
              numbered top_margin fuel 1 start
              (loop_start host output_path st) Hv Hp0)
    as (m & Hm & Hpages & Hsaved & Hfile & Hok).
  rewrite Hps0 in Hpages. cbn [app] in Hpages.
  rewrite Hsaved0 in Hsaved. rewrite Hfile0 in Hfile.
  exists m. split; [exact Hm|].
  destruct (while fuel _ _ (1, start) (loop_start host output_path st))
    as [[s' | e |] st3]; cbn [fst snd] in *.
  - destruct (Hok s' eq_refl) as (Hm' & _ & Hy & Hpg).
    destruct (finish_spec st3 Hpg) as (Hfp & Hfpg & Hfin).
    rewrite Hfp. split; [exact Hpages|].
    rewrite Hfile, Hpages in Hfin.
    destruct (write_pdf host output_path _) as [|e leftover] eqn:Hw.
    + destruct Hfin as [Hsv Hfin].
      destruct (stdout_write host (done_line output_path)) as [e|] eqn:Hpr;
        destruct Hfin as [Hfst Hstd]; rewrite Hfst.
      * split; [discriminate|]. split; [intros H; contradiction|].
        discriminate.
      * split.
        { intros _. rewrite Hsv, Hstd, Hout.
          split; [exact Hm'|]. split; [exact Hy|]. split; [reflexivity|].
          split; [exact Hfpg|]. split; [reflexivity|].
          split; reflexivity. }
        split; [intros H; contradiction | discriminate].
    + destruct Hfin as (Hfst & _ & _). rewrite Hfst.
      split; [discriminate|]. split; [intros H; contradiction|].
      discriminate.
  - split; [exact Hpages|]. split; [discriminate|].
    split; [intros _; split; [discriminate | exact Hsaved]|]. discriminate.
  - split; [exact Hpages|]. split; [discriminate|].
    split; [intros _; split; [discriminate | exact Hsaved]|].
    intros _. split; [exact Hsaved | exact Hout].
Qed.

(** A run with a positive spacing, a top margin in the range of the
    floats and enough fuel draws a page for every day that is left.  In
    the year 9999 the step past 31 December then raises before the save;
    in every other year the document goes to the host, and the run
    returns when the host writes it and prints the line. *)
Lemma build_agenda_pdf_run st :
  valid_date start = true -> 0 < spacing ->
  margin_in_range top_margin ->
  (agenda_fuel spacing top_margin start <= fuel)%nat ->
  pages (snd (build_agenda_pdf host fuel output_path (Some start) spacing
                size numbered top_margin st))
  = agenda_pages host (resolved_font host) spacing size numbered top_margin
      1 start (Z.to_nat (days_left start))
  /\ if year start =? 9999
     then fst (build_agenda_pdf host fuel output_path (Some start) spacing
                 size numbered top_margin st) = Raise OverflowError
          /\ saved (snd (build_agenda_pdf host fuel output_path (Some start)
                           spacing size numbered top_margin st)) = saved st
     else match write_pdf host output_path
                  (agenda_pages host (resolved_font host) spacing size
                     numbered top_margin 1 start
                     (Z.to_nat (days_left start))) with
          | Written =>
              saved (snd (build_agenda_pdf host fuel output_path (Some start)
                            spacing size numbered top_margin st))
              = Some (output_path,
                       agenda_pages host (resolved_font host) spacing size
                         numbered top_margin 1 start
                         (Z.to_nat (days_left start)))
              /\ match stdout_write host (done_line output_path) with
                 | None =>
                     fst (build_agenda_pdf host fuel output_path (Some start)
                            spacing size numbered top_margin st) = Ok tt
                     /\ stdout (snd (build_agenda_pdf host fuel output_path
                                       (Some start) spacing size numbered
                                       top_margin st))
                        = (stdout st ++ [done_line output_path])%list
                 | Some e =>
                     fst (build_agenda_pdf host fuel output_path (Some start)
                            spacing size numbered top_margin st) = Raise e
                     /\ stdout (snd (build_agenda_pdf host fuel output_path
                                       (Some start) spacing size numbered
                                       top_margin st))
                        = stdout st
                 end
          | WriteFailed e leftover =>
              fst (build_agenda_pdf host fuel output_path (Some start)
                     spacing size numbered top_margin st) = Raise e
              /\ stdout (snd (build_agenda_pdf host fuel output_path
                                (Some start) spacing size numbered top_margin
                                st))
                 = stdout st
              /\ saved (snd (build_agenda_pdf host fuel output_path
                               (Some start) spacing size numbered top_margin
                               st))
                 = match leftover with
                   | Some content => Some (output_path, content)
                   | None => saved st
                   end
          end.
Proof.
  intros Hv Hs Hrange Hf. unfold agenda_fuel in Hf.
  pose proof (days_left_pos start Hv) as Hpos.
  rewrite build_agenda_pdf_steps by assumption.
  destruct (loop_start_facts st) as (Hp0 & Hps0 & Hfile0 & Hsaved0 & Hout0 & Hk).
  unfold agenda_loop.
  destruct (Z.to_nat (days_left start)) as [|n] eqn:En; [lia|].
  rewrite (agenda_loop_run host fuel (resolved_font host) spacing size
             numbered top_margin n fuel 1 start)
    by (try assumption; lia).
  rewrite Hps0. cbn [app].
  destruct (year start =? 9999).
  - cbn [fst snd pages saved canvas.set_page]. repeat split. exact Hsaved0.
  - match goal with
    | |- context [finish host output_path ?s3] =>
        destruct (finish_spec s3 eq_refl) as (Hfp & _ & Hfin)
    end.
    cbn [pages filename saved stdout canvas.set_page] in Hfp, Hfin.
    rewrite Hfile0, Hsaved0, Hout0 in Hfin.
    split; [exact Hfp | exact Hfin].
Qed.

(** A run from a start date that is past the end date draws no page:
    the loop is left at its first test. *)
Lemma agenda_loop_empty font current end_ page_num st :
datetime.leb current end_ = false ->
agenda_loop host (S fuel) font spacing size numbered top_margin end_
  (page_num, current) st
= (Ok (page_num, current), st).
Proof.
intros Hle. unfold agenda_loop. rewrite while_step. cbn [snd].
rewrite Hle. reflexivity.
Qed.

End Build.

(** ** A spacing that is not positive *)

Section Stuck.

Variable host : Host.



End Stuck.

(** ** Where the loops of [draw_grid] stop *)



Lemma agenda_pages_length host font spacing size numbered top_margin n d m :
  List.length (agenda_pages host font spacing size numbered top_margin n d m) = m.
Proof.
  revert n d. induction m as [|m IH]; intros n d; cbn [agenda_pages List.length];
    [reflexivity | rewrite IH; reflexivity].
Qed.

Lemma agenda_pages_nth host font spacing size numbered top_margin m :
  forall n d i,
    (i < m)%nat ->
    nth_error (agenda_pages host font spacing size numbered top_margin n d m) i
    = Some (page_ops host font spacing size numbered top_margin
              (n + Z.of_nat i) (Nat.iter i next_day d)).
Proof.
  induction m as [|m IH]; intros n d i Hi; [lia|].
  destruct i as [|i]; cbn [agenda_pages nth_error].
  - cbn [Nat.iter nat_rect]. rewrite Z.add_0_r. reflexivity.
  - rewrite IH by lia. rewrite Nat.iter_succ_r. do 2 f_equal. lia.
Qed.

Lemma page_label_numbered host font spacing size top_margin n d :
  page_label (page_ops host font spacing size true top_margin n d)
  = Some (py_str n).
Proof.
  unfold page_label, page_ops, number_ops.
  rewrite !rev_app_distr. reflexivity.
Qed.

Lemma agenda_pages_labels host font spacing size top_margin m :
  forall n d,
    map page_label (agenda_pages host font spacing size true top_margin n d m)
    = map (fun i => Some (py_str (n + Z.of_nat i))) (seq 0 m).
Proof.
  induction m as [|m IH]; intros n d; [reflexivity|].
  cbn [agenda_pages map seq]. rewrite page_label_numbered, IH.
  rewrite <- seq_shift, map_map. rewrite Z.add_0_r. f_equal.
  apply map_ext. intros i. do 2 f_equal. lia.
Qed.

(** The cursor after [i] steps, while days are left in the year. *)
Lemma days_later d i :
  valid_date d = true -> Z.of_nat i < days_left d ->
  valid_date (Nat.iter i next_day d) = true
  /\ year (Nat.iter i next_day d) = year d
  /\ toordinal (Nat.iter i next_day d) = toordinal d + Z.of_nat i.
Proof.
  intros Hv. induction i as [|i IH]; intros Hi.
  - cbn [Nat.iter nat_rect]. repeat split; [assumption | lia].
  - destruct IH as (Hvi & Hyi & Hoi); [lia|].
    cbn [Nat.iter nat_rect]. fold (Nat.iter i next_day d).
    assert (Hl : days_left (Nat.iter i next_day d) = days_left d - Z.of_nat i).
    { unfold days_left. rewrite Hyi, Hoi. lia. }
    destruct (next_day_same_year (Nat.iter i next_day d) Hvi) as (H1 & H2 & H3);
      [lia|].
    split; [exact H1|]. split; [congruence|].
    rewrite toordinal_next_day by assumption. lia.
Qed.


(** ** Properties of the script *)

Lemma In_multiples x a s n :
  In x (multiples a s n) <-> exists k, (k < n)%nat /\ x = a + Z.of_nat k * s.
Proof.
  revert a. induction n as [|n IH]; intros a; cbn [multiples In].
  - split; [intros [] | intros (k & Hk & _); lia].
  - rewrite IH. split.
    + intros [<- | (k & Hk & ->)].
      * exists 0%nat. split; lia.
      * exists (S k). split; lia.
    + intros (k & Hk & ->). destruct k as [|k].
      * left. lia.
      * right. exists k. split; lia.
Qed.

Lemma range_check (f : Z -> bool) lo hi :
  forallb f (multiples lo 1 (Z.to_nat (hi - lo + 1))) = true ->
  forall z, lo <= z <= hi -> f z = true.
Proof.
  intros Hall z Hz. rewrite forallb_forall in Hall. apply Hall.
  apply In_multiples. exists (Z.to_nat (z - lo)). split; lia.
Qed.

Lemma day_numeral n :
  1 <= n <= 31 ->
  starts_with_zero (py_str n) = false /\ py_int (py_str n) = Some n.
Proof.
  intros Hn.
  pose proof (range_check
                (fun z => negb (starts_with_zero (py_str z))
                          && match py_int (py_str z) with
                             | Some z' => z' =? z
                             | None => false
                             end)
                1 31 eq_refl n Hn) as H.
  cbv beta in H. apply andb_prop in H. destruct H as [H1 H2].
  split; [destruct (starts_with_zero (py_str n)); [discriminate | reflexivity]|].
  destruct (py_int (py_str n)) as [z'|]; [|discriminate].
  apply Z.eqb_eq in H2. congruence.
Qed.

(** C2. For every date, [format_date_spanish] returns the weekday name,
    the day, the month name and the year, separated by single spaces: the
    weekday name is the entry of the seven-name table at the weekday index
    (Monday is 0), the month name the entry of the twelve-name table for the
    month (January is 1), and the day the decimal numeral with no leading
    zero.  2025-08-28 gives "Jueves 28 Agosto 2025" and 2025-01-01 gives
    "Miércoles 1 Enero 2025". *)
Theorem format_date_spanish_shape :
  forall d,
    valid_date d = true ->
    (exists wd mo,
        nth_error SPANISH_WEEKDAYS (Z.to_nat (weekday d)) = Some wd
        /\ nth_error SPANISH_MONTHS (Z.to_nat (month d - 1)) = Some mo
        /\ format_date_spanish d
           = Ok (wd ++ " " ++ py_str (day d) ++ " " ++ mo ++ " "
                 ++ py_str (year d))%string)
    /\ List.length SPANISH_WEEKDAYS = 7%nat
    /\ List.length SPANISH_MONTHS = 12%nat
    /\ starts_with_zero (py_str (day d)) = false
    /\ py_int (py_str (day d)) = Some (day d)
    /\ format_date_spanish (mk_date 2025 8 28) = Ok "Jueves 28 Agosto 2025"
    /\ format_date_spanish (mk_date 2025 1 1) = Ok "Miércoles 1 Enero 2025".
Proof.
  intros d Hv. pose proof (valid_date_bounds d Hv) as (Hy & Hm & Hd).
  pose proof (weekday_range d) as Hw.
  pose proof (days_in_month_bounds (year d) (month d) Hm) as Hb.
  split.
  - exists (nth (Z.to_nat (weekday d)) SPANISH_WEEKDAYS ""),
           (nth (Z.to_nat (month d - 1)) SPANISH_MONTHS "").
    repeat split.
    + apply nth_error_nth'. cbn [List.length SPANISH_WEEKDAYS]. lia.
    + apply nth_error_nth'. cbn [List.length SPANISH_MONTHS]. lia.
    + apply format_date_spanish_ok. exact Hv.
  - destruct (day_numeral (day d)) as [Hz Hi]; [lia|].
    repeat split; try assumption; reflexivity.
Qed.

Lemma format_date_spanish_shape_witness :
  valid_date (mk_date 2024 2 29) = true
  /\ format_date_spanish (mk_date 2024 2 29) = Ok "Jueves 29 Febrero 2024".
Proof.
  split; [reflexivity|].
  destruct (format_date_spanish_shape (mk_date 2024 2 29) eq_refl)
    as [(wd & mo & Hwd & Hmo & Hf) _].
  vm_compute in Hwd, Hmo. injection Hwd as <-. injection Hmo as <-.
  exact Hf.
Defined.

(** C10. [format_date_spanish] fails on no valid date: the weekday index
    is from 0 to 6, inside the table of seven names, the month less one is
    from 0 to 11, inside the table of twelve, and neither lookup raises
    [IndexError]. *)
Theorem format_date_spanish_total :
  forall d,
    valid_date d = true ->
    0 <= weekday d < Z.of_nat (List.length SPANISH_WEEKDAYS)
    /\ 0 <= month d - 1 < Z.of_nat (List.length SPANISH_MONTHS)
    /\ (exists wd, py_index SPANISH_WEEKDAYS (weekday d) = Ok wd)
    /\ (exists mo, py_index SPANISH_MONTHS (month d - 1) = Ok mo)
    /\ exists text, format_date_spanish d = Ok text.
Proof.
  intros d Hv. pose proof (valid_date_bounds d Hv) as (Hy & Hm & Hd).
  pose proof (weekday_range d) as Hw.
  assert (H7 : 0 <= weekday d < Z.of_nat (List.length SPANISH_WEEKDAYS))
    by (cbn [List.length SPANISH_WEEKDAYS]; lia).
  assert (H12 : 0 <= month d - 1 < Z.of_nat (List.length SPANISH_MONTHS))
    by (cbn [List.length SPANISH_MONTHS]; lia).
  repeat split; try lia.
  - eexists. apply (py_index_in_range _ _ ""). exact H7.
  - eexists. apply (py_index_in_range _ _ ""). exact H12.
  - eexists. apply format_date_spanish_ok. exact Hv.
Qed.

Lemma format_date_spanish_total_witness :
  exists text, format_date_spanish (mk_date 9999 12 31) = Ok text.
Proof.
  destruct (format_date_spanish_total (mk_date 9999 12 31) eq_refl)
    as (_ & _ & _ & _ & H).
  exact H.
Defined.






(** The horizontal lines stay below the header band. *)
Lemma horizontal_below_band page_w page_h top_margin y :
  (inject_Z y <= page_h - inject_Z top_margin)%Q ->
  enters_header_band page_h top_margin (horizontal page_w y) = false.
Proof.
  intros Hy. apply Qle_bool_iff in Hy.
  unfold enters_header_band, horizontal, in_header_band. rewrite Hy. reflexivity.
Qed.

(** Every vertical line ends in the header band of a positive margin. *)
Lemma vertical_in_band page_h top_margin x :
  0 < top_margin ->
  enters_header_band page_h top_margin (vertical page_h x) = true.
Proof.
  intros Ht. unfold enters_header_band, vertical, in_header_band.
  apply orb_true_iff. right. apply negb_true_iff.
  destruct (Qle_bool page_h (page_h - inject_Z top_margin)) eqn:E; [|reflexivity].
  apply Qle_bool_iff in E. exfalso.
  assert (H : (inject_Z 0 < inject_Z top_margin)%Q)
    by (rewrite <- Zlt_Qlt; exact Ht).
  change (inject_Z 0) with 0%Q in H. lra.
Qed.

(** C5. On the A4 page with the default spacing of 20 and top margin of
    100, [draw_grid] returns and has drawn the vertical line at x = 0 from
    the bottom of the page to its top: that line lies in the header band,
    which the claim says no grid line enters. *)
Theorem draw_grid_vertical_crosses_header :
  fst (draw_grid 40 (fst A4) (snd A4) 20 100 initial_state) = Ok tt
  /\ In (Line 0 0 0 (snd A4))
       (page (snd (draw_grid 40 (fst A4) (snd A4) 20 100 initial_state)))
  /\ enters_header_band (snd A4) 100 (Line 0 0 0 (snd A4)) = true.
Proof.
  split; [|split].
  - rewrite draw_grid_ok; [reflexivity | lia | reflexivity | vm_compute; lia].
  - rewrite draw_grid_ok; [| lia | reflexivity | vm_compute; lia].
    cbn [snd page canvas.set_page initial_state app]. unfold grid_ops.
    apply in_or_app. right. apply in_or_app. left.
    apply in_map_iff. exists 0. split; [reflexivity|].
    apply In_multiples. exists 0%nat. split; [vm_compute|]; lia.
  - exact (vertical_in_band (snd A4) 100 0 eq_refl).
Qed.

(** C8. For every text, font and size, [draw_centered_text_top] measures
    the text and draws it with its left end at (page width - text width) / 2
    and at the height page height - top offset, so that the left end plus
    half the text width is half the page width.  The text is drawn when the
    top offset has a float; when it has none, the subtraction of line 112
    raises [OverflowError] after the font is set, and no text is drawn. *)
Theorem draw_centered_text_top_centered :
  forall host text page_w page_h font size top_offset st,
    canvas.font_known st font = true ->
    exists x y,
      x = ((page_w - stringWidth host text font size) / 2)%Q
      /\ y = (page_h - inject_Z top_offset)%Q
      /\ (x + stringWidth host text font size / 2 == page_w / 2)%Q
      /\ (Z.abs top_offset < float_max_int ->
          draw_centered_text_top host text page_w page_h font size top_offset
            st
          = (Ok tt,
             canvas.set_page st
               (page st ++ [SetFont font size; DrawString x y text])
               (pages st)))
      /\ (float_max_int <= Z.abs top_offset ->
          draw_centered_text_top host text page_w page_h font size top_offset
            st
          = (Raise OverflowError,
             canvas.set_page st (page st ++ [SetFont font size]) (pages st))).
Proof.
  intros host text page_w page_h font size top_offset st Hk.
  exists ((page_w - stringWidth host text font size) / 2)%Q,
         (page_h - inject_Z top_offset)%Q.
  split; [reflexivity|]. split; [reflexivity|]. split; [field|].
  split; intros Hr.
  - apply draw_centered_text_top_ok; assumption.
  - apply draw_centered_text_top_overflow; assumption.
Qed.

Lemma draw_centered_text_top_centered_witness :
  exists x y,
    draw_centered_text_top linux_host "Jueves 28 Agosto 2025" (fst A4) (snd A4)
      "Helvetica" 40 70 initial_state
    = (Ok tt,
       canvas.set_page initial_state
         [SetFont "Helvetica" 40; DrawString x y "Jueves 28 Agosto 2025"] [])
    /\ (x + stringWidth linux_host "Jueves 28 Agosto 2025" "Helvetica" 40 / 2
        == fst A4 / 2)%Q.
Proof.
  destruct (draw_centered_text_top_centered linux_host "Jueves 28 Agosto 2025"
              (fst A4) (snd A4) "Helvetica" 40 70 initial_state eq_refl)
    as (x & y & _ & _ & Hmid & Hrun & _).
  exists x, y. split; [exact (Hrun eq_refl) | exact Hmid].
Defined.


(** C6, as stated, fails.  On a host whose Python has the [zoneinfo]
    module but whose time zone database lacks Europe/Paris, the date of
    today is not taken from the local clock: [ZoneInfoNotFoundError]
    reaches the caller, and the pipeline with it. *)
Lemma today_europe_paris_zone_missing :
  zone_known bare_host "Europe/Paris" = false
  /\ today_europe_paris bare_host initial_state
     = (Raise ZoneInfoNotFoundError, initial_state)
  /\ today_europe_paris bare_host initial_state
     <> (Ok (date_today bare_host), initial_state)
  /\ fst (build_agenda_pdf bare_host 400 "Agenda_2025.pdf" None 20 40 true 100
            initial_state)
     = Raise ZoneInfoNotFoundError.
Proof.
  split; [reflexivity|]. split; [reflexivity|]. split; [discriminate|].
  reflexivity.
Qed.

(** C6, amended. With the default start date, today is the date in the
    Europe/Paris time zone when the [zoneinfo] module was imported and
    knows that zone, and it is the date of the local clock, with no error,
    when the module could not be imported. *)
Theorem today_europe_paris_spec :
  forall host st,
    (forall zone_info tz,
        ZoneInfo host = Some zone_info ->
        zone_info "Europe/Paris" = Some tz ->
        today_europe_paris host st = (Ok (datetime_now_date host tz), st)
        /\ start_of host None st = (Ok (datetime_now_date host tz), st))
    /\ (ZoneInfo host = None ->
        today_europe_paris host st = (Ok (date_today host), st)
        /\ start_of host None st = (Ok (date_today host), st)).
Proof.
  intros host st. unfold start_of, today_europe_paris. split.
  - intros zone_info tz -> ->. split; reflexivity.
  - intros ->. split; reflexivity.
Qed.

Lemma today_europe_paris_spec_witness :
  today_europe_paris linux_host initial_state
  = (Ok (mk_date 2025 8 28), initial_state)
  /\ today_europe_paris old_python_host initial_state
     = (Ok (mk_date 2025 8 28), initial_state).
Proof.
  split.
  - exact (proj1 (proj1 (today_europe_paris_spec linux_host initial_state)
                    _ "Europe/Paris" eq_refl eq_refl)).
  - exact (proj1 (proj2 (today_europe_paris_spec old_python_host initial_state)
                    eq_refl)).
Defined.

Lemma find_first {A : Type} (f : A -> bool) (l : list A) :
  match find f l with
  | Some c =>
      exists before after,
        l = (before ++ c :: after)%list
        /\ (forall c', In c' before -> f c' = false)
        /\ f c = true
  | None => forall c, In c l -> f c = false
  end.
Proof.
  induction l as [|a l IH]; cbn [find].
  - intros c [].
  - destruct (f a) eqn:Ea.
    + exists [], l. repeat split; [intros c' []|exact Ea].
    + destruct (find f l) as [c|].
      * destruct IH as (before & after & -> & Hb & Hc).
        exists (a :: before), after. repeat split; [|exact Hc].
        intros c' [<- | Hin]; [exact Ea | apply Hb; exact Hin].
      * intros c [<- | Hin]; [exact Ea | apply IH; exact Hin].
Qed.


Lemma build_agenda_pdf_start host fuel output_path start_date start spacing
    size numbered top_margin st :
  start_of host start_date st = (Ok start, st) ->
  build_agenda_pdf host fuel output_path start_date spacing size numbered
    top_margin st
  = build_agenda_pdf host fuel output_path (Some start) spacing size numbered
      top_margin st.
Proof.
  intros Hstart. unfold build_agenda_pdf. apply bind_same_start. exact Hstart.
Qed.

(** Outside the year 9999, on a host that writes the document and prints
    the line, a run with a positive spacing, a top margin that has a float
    and enough fuel saves one page for each day from the start date to 31
    December. *)
Lemma build_agenda_pdf_page_count host fuel output_path start spacing size
    numbered top_margin st :
  valid_date start = true -> year start <> 9999 -> 0 < spacing ->
  margin_in_range top_margin ->
  (agenda_fuel spacing top_margin start <= fuel)%nat ->
  write_pdf host output_path
    (agenda_pages host (resolved_font host) spacing size numbered top_margin
       1 start (Z.to_nat (days_left start))) = Written ->
  stdout_write host (done_line output_path) = None ->
  fst (build_agenda_pdf host fuel output_path (Some start) spacing size
         numbered top_margin st) = Ok tt
  /\ saved (snd (build_agenda_pdf host fuel output_path (Some start) spacing
                   size numbered top_margin st))
     = Some (output_path,
              agenda_pages host (resolved_font host) spacing size numbered
                top_margin 1 start (Z.to_nat (days_left start)))
  /\ Z.of_nat
       (List.length
          (agenda_pages host (resolved_font host) spacing size numbered
             top_margin 1 start (Z.to_nat (days_left start))))
     = days_left start.
Proof.
  intros Hv Hy Hs Hm Hf Hw Hp.
  destruct (build_agenda_pdf_run host fuel output_path start spacing size
              numbered top_margin st Hv Hs Hm Hf) as [_ Hrun].
  apply Z.eqb_neq in Hy. rewrite Hy, Hw, Hp in Hrun.
  destruct Hrun as (Hsaved & Hok & _).
  split; [exact Hok|]. split; [exact Hsaved|].
  rewrite agenda_pages_length. pose proof (days_left_pos start Hv). lia.
Qed.

(** C1. A run from 9999-12-31, the one day left in the year 9999: on no
    fuel does it return, and it saves nothing; with the default settings it
    finishes the one page and then raises [OverflowError] in the step to
    the next day, before the save.  The claim says that one page is
    produced for every start date. *)
Theorem build_agenda_pdf_last_day_of_9999 :
  forall host fuel output_path spacing size numbered top_margin st,
    valid_date (mk_date 9999 12 31) = true
    /\ days_left (mk_date 9999 12 31) = 1
    /\ fst (build_agenda_pdf host fuel output_path (Some (mk_date 9999 12 31))
              spacing size numbered top_margin st) <> Ok tt
    /\ saved (snd (build_agenda_pdf host fuel output_path
                     (Some (mk_date 9999 12 31)) spacing size numbered
                     top_margin st))
       = saved st
    /\ fst (build_agenda_pdf host 40 output_path (Some (mk_date 9999 12 31))
              20 40 true 100 st) = Raise OverflowError
    /\ List.length
         (pages (snd (build_agenda_pdf host 40 output_path
                        (Some (mk_date 9999 12 31)) 20 40 true 100 st)))
       = 1%nat.
Proof.
  intros host fuel output_path spacing size numbered top_margin st.
  split; [reflexivity|]. split; [reflexivity|].
  destruct (build_agenda_pdf_any host fuel output_path (mk_date 9999 12 31)
              spacing size numbered top_margin st eq_refl)
    as (m & _ & _ & _ & Hfail & _).
  destruct (Hfail eq_refl) as [Hne Hsaved].
  split; [exact Hne|]. split; [exact Hsaved|].
  assert (Hf : (agenda_fuel 20 100 (mk_date 9999 12 31) <= 40)%nat)
    by (vm_compute; lia).
  destruct (build_agenda_pdf_run host 40 output_path (mk_date 9999 12 31) 20 40
              true 100 st eq_refl eq_refl (conj eq_refl eq_refl) Hf)
    as [Hpages Hrun].
  cbn [year Z.eqb Pos.eqb] in Hrun. destruct Hrun as [Hraise _].
  split; [exact Hraise|]. rewrite Hpages. apply agenda_pages_length.
Qed.

Lemma first_of_next_year_ordinal d :
  toordinal (mk_date (year d + 1) 1 1) = toordinal d + days_left d.
Proof.
  unfold days_left. rewrite last_day_ordinal. unfold toordinal at 1.
  cbn [year month day]. unfold _days_before_month. tables. lia.
Qed.

(** C3. In every run of the pipeline, finished or not, the pages on the
    canvas are numbered 1, 2, 3, ... in their order, one page per day from
    the start date on: page [i] (from 0) is the page of the day [i] days
    after the start with the number [i + 1], and with page numbers switched
    on the labels drawn are exactly the numerals of 1 to the page count.
    When the loop returns, the counter is one more than the page count and
    the cursor is as many days after the start. *)
Theorem page_numbers_in_sequence :
  forall host fuel output_path start_date start spacing size numbered
         top_margin st,
    start_of host start_date st = (Ok start, st) ->
    valid_date start = true ->
    (exists m : nat,
        List.length
          (pages (snd (build_agenda_pdf host fuel output_path start_date
                         spacing size numbered top_margin st))) = m
        /\ (m <= Z.to_nat (days_left start))%nat
        /\ (forall i,
              (i < m)%nat ->
              nth_error
                (pages (snd (build_agenda_pdf host fuel output_path start_date
                               spacing size numbered top_margin st))) i
              = Some (page_ops host (resolved_font host) spacing size numbered
                        top_margin (1 + Z.of_nat i) (Nat.iter i next_day start))
              /\ toordinal (Nat.iter i next_day start)
                 = toordinal start + Z.of_nat i)
        /\ (numbered = true ->
            map page_label
              (pages (snd (build_agenda_pdf host fuel output_path start_date
                             spacing size numbered top_margin st)))
            = map (fun i => Some (py_str (1 + Z.of_nat i))) (seq 0 m))
        /\ (fst (build_agenda_pdf host fuel output_path start_date spacing size
                   numbered top_margin st) = Ok tt ->
            m = Z.to_nat (days_left start)))
    /\ (forall font st' page_num current,
          page st' = [] ->
          fst (agenda_loop host fuel font spacing size numbered top_margin
                 (mk_date (year start) 12 31) (1, start) st')
          = Ok (page_num, current) ->
          Z.of_nat
            (List.length
               (pages (snd (agenda_loop host fuel font spacing size numbered
                              top_margin (mk_date (year start) 12 31)
                              (1, start) st'))))
          = Z.of_nat (List.length (pages st')) + (page_num - 1)
          /\ page_num - 1 = days_left start
          /\ toordinal current = toordinal start + (page_num - 1)).
Proof.
  intros host fuel output_path start_date start spacing size numbered
    top_margin st Hstart Hv.
  pose proof (days_left_pos start Hv) as Hpos. split.
  - rewrite (build_agenda_pdf_start host fuel output_path start_date start)
      by exact Hstart.
    destruct (build_agenda_pdf_any host fuel output_path start spacing size
                numbered top_margin st Hv) as (m & Hm & Hpages & Hok & _).
    exists m. rewrite Hpages.
    split; [apply agenda_pages_length|]. split; [exact Hm|]. split.
    { intros i Hi. split; [apply agenda_pages_nth; exact Hi|].
      apply days_later; [exact Hv | lia]. }
    split.
    { intros ->. apply agenda_pages_labels. }
    intros H. destruct (Hok H) as (Hm' & _). exact Hm'.
  - intros font st' page_num current Hp Hloop. unfold agenda_loop in *.
    destruct (agenda_loop_any host fuel font spacing size numbered top_margin
                fuel 1 start st' Hv Hp)
      as (m & Hm & Hpages & _ & _ & Hok).
    destruct (Hok _ Hloop) as (Hm' & Hs' & _ & _).
    pose proof (f_equal fst Hs') as Hpn. pose proof (f_equal snd Hs') as Hcur.
    cbn [fst snd] in Hpn, Hcur. subst current.
    rewrite Hpages, length_app, agenda_pages_length.
    rewrite first_of_next_year_ordinal. lia.
Qed.

Lemma page_numbers_in_sequence_witness :
  map page_label
    (pages (snd (build_agenda_pdf linux_host 40 "Agenda_2025.pdf"
                   (Some (mk_date 2025 12 29)) 20 40 true 100 initial_state)))
  = [Some "1"; Some "2"; Some "3"].
Proof.
  destruct (page_numbers_in_sequence linux_host 40 "Agenda_2025.pdf"
              (Some (mk_date 2025 12 29)) (mk_date 2025 12 29) 20 40 true 100
              initial_state eq_refl eq_refl)
    as [(m & Hlen & _ & _ & Hlabels & Hall) _].
  assert (Hf : (agenda_fuel 20 100 (mk_date 2025 12 29) <= 40)%nat)
    by (vm_compute; lia).
  destruct (build_agenda_pdf_page_count linux_host 40 "Agenda_2025.pdf"
              (mk_date 2025 12 29) 20 40 true 100 initial_state eq_refl
              ltac:(discriminate) eq_refl (conj eq_refl eq_refl) Hf eq_refl
              eq_refl) as [Hok _].
  rewrite (Hlabels eq_refl). rewrite (Hall Hok). reflexivity.
Defined.
(** ** What a run can raise *)

Section Raises.

Variables (host : Host) (gfuel : nat) (font : string) (spacing size : Z)
          (numbered : bool) (top_margin : Z).

(** With a font the canvas knows a turn of the loop finishes its page, or
    is still drawing its grid, or raises [OverflowError] for a top margin
    that has no float. *)
Lemma agenda_page_known pn cur st :
  valid_date cur = true -> page st = [] ->
  canvas.font_known st font = true ->
  (margin_in_range top_margin
   /\ agenda_page host gfuel font spacing size numbered top_margin (pn, cur)
        st
      = (obind (add_one_day cur) (fun next => Ok (pn + 1, next)),
         canvas.set_page st []
           (pages st
            ++ [page_ops host font spacing size numbered top_margin pn cur])))
  \/ fst (agenda_page host gfuel font spacing size numbered top_margin
            (pn, cur) st) = OutOfFuel
  \/ (~ margin_in_range top_margin
      /\ fst (agenda_page host gfuel font spacing size numbered top_margin
                (pn, cur) st) = Raise OverflowError).
Proof.
  intros Hv Hp Hk.
  destruct (draw_grid_any gfuel (fst A4) (snd A4) spacing top_margin st
              A4_width_nonneg) as [[Hm Hg] | [Hg | [Hm Hg]]].
  - destruct (Z.lt_ge_cases (Z.abs (top_margin - 30)) float_max_int)
      as [Hm30 | Hm30].
    + left. split; [split; assumption|]. apply agenda_page_drawn; assumption.
    + right. right. split; [intros [_ H]; lia|].
      unfold agenda_page.
      change A4 with (fst A4, snd A4). cbv beta iota.
      run_bind. rewrite Hg. cbv beta iota.
      run_bind. unfold lift at 1.
      rewrite format_date_spanish_ok by assumption. cbv beta iota.
      run_bind.
      rewrite draw_centered_text_top_overflow by assumption.
      reflexivity.
  - right. left. unfold agenda_page.
    change A4 with (fst A4, snd A4). cbv beta iota. run_bind.
    destruct (draw_grid gfuel (fst A4) (snd A4) spacing top_margin st)
      as [[[] | e |] s1]; cbn [fst] in *; try discriminate.
    reflexivity.
  - right. right. split; [intros [H _]; lia|].
    unfold agenda_page.
    change A4 with (fst A4, snd A4). cbv beta iota. run_bind.
    destruct (draw_grid gfuel (fst A4) (snd A4) spacing top_margin st)
      as [[[] | e |] s1]; cbn [fst] in *; try discriminate.
    injection Hg as ->. reflexivity.
Qed.

(** The loop raises nothing but [OverflowError]: in the step past
    9999-12-31, or for a top margin that has no float. *)
Lemma agenda_loop_raises fuel :
  forall pn cur st e,
    valid_date cur = true -> page st = [] ->
    canvas.font_known st font = true ->
    fst (while fuel
           (fun s => datetime.leb (snd s) (mk_date (year cur) 12 31))
           (agenda_page host gfuel font spacing size numbered top_margin)
           (pn, cur) st) = Raise e ->
    e = OverflowError
    /\ (~ margin_in_range top_margin
        \/ (margin_in_range top_margin /\ year cur = 9999)).
Proof.
  induction fuel as [|fuel IH]; intros pn cur st e Hv Hp Hk Hr;
    [discriminate|].
  rewrite while_step in Hr. cbn [snd] in Hr.
  rewrite leb_end_of_year in Hr by assumption.
  destruct (agenda_page_known pn cur st Hv Hp Hk)
    as [[Hm Hpage] | [Hout | [Hm Hraise]]].
  - rewrite Hpage in Hr. rewrite add_one_day_spec in Hr by assumption.
    destruct (days_left cur =? 1) eqn:El.
    + apply Z.eqb_eq in El. destruct (days_left_one cur Hv El) as [Hmo Hd].
      rewrite andb_true_r in Hr.
      destruct (year cur =? 9999) eqn:Ey; cbn [obind] in Hr.
      * apply Z.eqb_eq in Ey. cbn [fst] in Hr.
        split; [congruence | right; split; assumption].
      * destruct cur as [y m d]. cbn [year month day] in *. subst m d.
        rewrite next_day_last in Hr. destruct fuel as [|fuel]; [discriminate|].
        rewrite while_step in Hr. cbn [snd] in Hr.
        rewrite leb_new_year in Hr. discriminate.
    + apply Z.eqb_neq in El. rewrite andb_false_r in Hr. cbn [obind] in Hr.
      pose proof (days_left_pos cur Hv) as Hpos.
      assert (Hl1 : 1 < days_left cur) by lia.
      destruct (next_day_same_year cur Hv Hl1) as (Hvn & Hyr & _).
      rewrite <- Hyr in Hr. rewrite <- Hyr.
      apply (IH (pn + 1) (next_day cur) (canvas.set_page st [] _) e Hvn eq_refl
               Hk Hr).
  - destruct (agenda_page host gfuel font spacing size numbered top_margin
                (pn, cur) st) as [[s' | e' |] st']; cbn [fst] in *;
      discriminate.
  - destruct (agenda_page host gfuel font spacing size numbered top_margin
                (pn, cur) st) as [[s' | e' |] st']; cbn [fst] in *;
      try discriminate.
    split; [congruence | left; exact Hm].
Qed.

End Raises.

(** A run that raises: the loop has raised [OverflowError] and nothing is
    saved, or the host has failed to write the document, or it has written
    it and failed to print the line.  Nothing is printed. *)
Lemma build_agenda_pdf_raises host fuel output_path start spacing size
    numbered top_margin st e :
  valid_date start = true ->
  fst (build_agenda_pdf host fuel output_path (Some start) spacing size
         numbered top_margin st) = Raise e ->
  stdout (snd (build_agenda_pdf host fuel output_path (Some start) spacing
                 size numbered top_margin st)) = stdout st
  /\ ((e = OverflowError
       /\ (~ margin_in_range top_margin
           \/ (margin_in_range top_margin /\ year start = 9999))
       /\ saved (snd (build_agenda_pdf host fuel output_path (Some start)
                        spacing size numbered top_margin st)) = saved st)
      \/ (exists leftover,
             pages (snd (build_agenda_pdf host fuel output_path (Some start)
                           spacing size numbered top_margin st))
             = agenda_pages host (resolved_font host) spacing size numbered
                 top_margin 1 start (Z.to_nat (days_left start))
             /\ write_pdf host output_path
                  (agenda_pages host (resolved_font host) spacing size
                     numbered top_margin 1 start (Z.to_nat (days_left start)))
                = WriteFailed e leftover
             /\ saved (snd (build_agenda_pdf host fuel output_path
                              (Some start) spacing size numbered top_margin
                              st))
                = match leftover with
                  | Some content => Some (output_path, content)
                  | None => saved st
                  end)
      \/ (pages (snd (build_agenda_pdf host fuel output_path (Some start)
                        spacing size numbered top_margin st))
          = agenda_pages host (resolved_font host) spacing size numbered
              top_margin 1 start (Z.to_nat (days_left start))
          /\ write_pdf host output_path
               (agenda_pages host (resolved_font host) spacing size numbered
                  top_margin 1 start (Z.to_nat (days_left start)))
             = Written
          /\ stdout_write host (done_line output_path) = Some e
          /\ saved (snd (build_agenda_pdf host fuel output_path (Some start)
                           spacing size numbered top_margin st))
             = Some (output_path,
                      agenda_pages host (resolved_font host) spacing size
                        numbered top_margin 1 start
                        (Z.to_nat (days_left start))))).
Proof.
  intros Hv. rewrite build_agenda_pdf_steps by assumption.
  destruct (loop_start_facts host output_path st)
    as (Hp0 & Hps0 & Hfile0 & Hsaved0 & Hout0 & Hk).
  pose proof (keeps_agenda_loop (stdout st) host fuel (resolved_font host)
                spacing size numbered top_margin (mk_date (year start) 12 31)
                (1, start) (loop_start host output_path st) Hout0) as Hout.
  unfold printed in Hout. unfold agenda_loop in *.
  destruct (agenda_loop_any host fuel (resolved_font host) spacing size
              numbered top_margin fuel 1 start
              (loop_start host output_path st) Hv Hp0)
    as (m & Hm & Hpages & Hsaved & Hfile & Hok).
  rewrite Hps0 in Hpages. cbn [app] in Hpages.
  rewrite Hsaved0 in Hsaved. rewrite Hfile0 in Hfile.
  pose proof (fun e' =>
                agenda_loop_raises host fuel (resolved_font host) spacing
                  size numbered top_margin fuel 1 start
                  (loop_start host output_path st) e' Hv Hp0 Hk) as Hraise.
  destruct (while fuel _ _ (1, start) (loop_start host output_path st))
    as [[s' | e' |] st3]; cbn [fst snd] in *.
  - destruct (Hok s' eq_refl) as (-> & _ & Hy & Hpg).
    destruct (finish_spec host output_path st3 Hpg) as (Hfp & _ & Hfin).
    rewrite Hfile, Hpages, Hsaved, Hout in Hfin. rewrite Hpages in Hfp.
    destruct (write_pdf host output_path _) as [|e1 leftover].
    + destruct Hfin as [Hsv Hfin].
      destruct (stdout_write host (done_line output_path)) as [e1|];
        destruct Hfin as [Hfst Hstd]; rewrite Hfst; intros He;
        [|discriminate].
      injection He as <-. split; [exact Hstd|]. right. right.
      split; [exact Hfp|]. split; [reflexivity|].
      split; [reflexivity | exact Hsv].
    + destruct Hfin as (Hfst & Hstd & Hsv). rewrite Hfst. intros He.
      injection He as <-. split; [exact Hstd|]. right. left.
      exists leftover. split; [exact Hfp|].
      split; [reflexivity | exact Hsv].
  - intros He. injection He as <-. split; [exact Hout|]. left.
    destruct (Hraise e' eq_refl) as [He Hwhy].
    split; [exact He|]. split; [exact Hwhy | exact Hsaved].
  - discriminate.
Qed.

(** Every run from a resolved, valid start date, whatever the fuel. *)
Lemma build_agenda_pdf_pages host fuel output_path start_date start spacing
    size numbered top_margin st :
  start_of host start_date st = (Ok start, st) ->
  valid_date start = true ->
  exists m : nat,
    (m <= Z.to_nat (days_left start))%nat
    /\ pages (snd (build_agenda_pdf host fuel output_path start_date spacing
                     size numbered top_margin st))
       = agenda_pages host (resolved_font host) spacing size numbered
           top_margin 1 start m
    /\ (fst (build_agenda_pdf host fuel output_path start_date spacing size
               numbered top_margin st) = Ok tt ->
        m = Z.to_nat (days_left start)).
Proof.
  intros Hstart Hv.
  rewrite (build_agenda_pdf_start host fuel output_path start_date start)
    by exact Hstart.
  destruct (build_agenda_pdf_any host fuel output_path start spacing size
              numbered top_margin st Hv) as (m & Hm & Hpages & Hok & _).
  exists m. split; [exact Hm|]. split; [exact Hpages|].
  intros H. destruct (Hok H) as [Hm' _]. exact Hm'.
Qed.

Lemma build_agenda_pdf_page host fuel output_path start_date start spacing
    size numbered top_margin st i p :
  start_of host start_date st = (Ok start, st) ->
  valid_date start = true ->
  nth_error
    (pages (snd (build_agenda_pdf host fuel output_path start_date spacing
                   size numbered top_margin st))) i = Some p ->
  Z.of_nat i < days_left start
  /\ p = page_ops host (resolved_font host) spacing size numbered top_margin
           (1 + Z.of_nat i) (Nat.iter i next_day start).
Proof.
  intros Hstart Hv Hp.
  destruct (build_agenda_pdf_pages host fuel output_path start_date start
              spacing size numbered top_margin st Hstart Hv)
    as (m & Hm & Hpages & _).
  rewrite Hpages in Hp.
  assert (Hi : (i < m)%nat).
  { rewrite <- (agenda_pages_length host (resolved_font host) spacing size
                  numbered top_margin 1 start m).
    apply nth_error_Some. congruence. }
  rewrite agenda_pages_nth in Hp by exact Hi.
  pose proof (days_left_pos start Hv). split; [lia | congruence].
Qed.

(** ** Numerals and texts *)

(** A numeral reads back as the number it was printed from. *)
Lemma py_int_py_str n : py_int (py_str n) = Some n.
Proof.
  unfold py_int, py_str. rewrite NilZero.isi.
  - cbn [option_map]. rewrite DecimalZ.of_to. reflexivity.
  - destruct n as [|p|p]; cbn; try discriminate.
    intros H. injection H as H. exact (DecimalPos.Unsigned.to_uint_nonnil p H).
  - destruct n as [|p|p]; cbn; try discriminate.
    intros H. injection H as H. exact (DecimalPos.Unsigned.to_uint_nonnil p H).
Qed.

Lemma py_str_inj n n' : py_str n = py_str n' -> n = n'.
Proof.
  intros H. apply (f_equal py_int) in H. rewrite !py_int_py_str in H.
  congruence.
Qed.

Lemma texts_app p q : texts (p ++ q) = (texts p ++ texts q)%list.
Proof. unfold texts. apply flat_map_app. Qed.

Lemma texts_lines (mk : Z -> op) l :
  (forall x, is_line (mk x) = true) -> texts (map mk l) = [].
Proof.
  intros Hmk. induction l as [|x l IH]; [reflexivity|].
  unfold texts in *. cbn [map flat_map]. rewrite IH, app_nil_r.
  specialize (Hmk x). destruct (mk x); try discriminate. reflexivity.
Qed.

Lemma texts_grid_ops page_w page_h spacing top_margin :
  texts (grid_ops page_w page_h spacing top_margin) = [].
Proof.
  unfold grid_ops. rewrite !texts_app.
  rewrite (texts_lines (vertical page_h)) by reflexivity.
  rewrite (texts_lines (horizontal page_w)) by reflexivity.
  reflexivity.
Qed.

Lemma texts_page_ops host font spacing size numbered top_margin n d :
  texts (page_ops host font spacing size numbered top_margin n d)
  = spanish_date d :: (if numbered then [py_str n] else []).
Proof.
  unfold page_ops. rewrite !texts_app, texts_grid_ops.
  destruct numbered; reflexivity.
Qed.

Lemma split_at_space a :
  forall b x y,
    has_space a = false -> has_space b = false ->
    (a ++ " " ++ x)%string = (b ++ " " ++ y)%string ->
    a = b /\ x = y.
Proof.
  unfold has_space.
  induction a as [|c a IH]; intros [|c' b] x y Ha Hb Heq;
    cbn [String.append list_ascii_of_string existsb] in *.
  - injection Heq as Heq. split; [reflexivity | exact Heq].
  - injection Heq as Hc _. subst c'. discriminate.
  - injection Heq as Hc _. subst c. discriminate.
  - injection Heq as Hc Heq. subst c'.
    apply orb_false_iff in Ha, Hb. destruct Ha as [_ Ha]. destruct Hb as [_ Hb].
    destruct (IH b x y Ha Hb Heq) as [-> ->]. split; reflexivity.
Qed.

Lemma weekday_name_no_space w :
  0 <= w <= 6 -> has_space (nth (Z.to_nat w) SPANISH_WEEKDAYS "") = false.
Proof.
  intros Hw.
  pose proof (range_check
                (fun z => negb (has_space (nth (Z.to_nat z) SPANISH_WEEKDAYS "")))
                0 6 eq_refl w Hw) as H.
  cbv beta in H. apply negb_true_iff in H. exact H.
Qed.

Lemma month_name_no_space m :
  1 <= m <= 12 -> has_space (nth (Z.to_nat (m - 1)) SPANISH_MONTHS "") = false.
Proof.
  intros Hm.
  pose proof (range_check
                (fun z => negb (has_space
                                  (nth (Z.to_nat (z - 1)) SPANISH_MONTHS "")))
                1 12 eq_refl m Hm) as H.
  cbv beta in H. apply negb_true_iff in H. exact H.
Qed.

Lemma day_numeral_no_space n : 1 <= n <= 31 -> has_space (py_str n) = false.
Proof.
  intros Hn.
  pose proof (range_check (fun z => negb (has_space (py_str z)))
                1 31 eq_refl n Hn) as H.
  cbv beta in H. apply negb_true_iff in H. exact H.
Qed.

(** No two months share a name. *)
Lemma month_name_inj m m' :
  1 <= m <= 12 -> 1 <= m' <= 12 ->
  nth (Z.to_nat (m - 1)) SPANISH_MONTHS ""
  = nth (Z.to_nat (m' - 1)) SPANISH_MONTHS "" ->
  m = m'.
Proof.
  intros Hm Hm' Heq.
  pose proof (range_check
                (fun z =>
                   forallb
                     (fun z' =>
                        implb (String.eqb
                                 (nth (Z.to_nat (z - 1)) SPANISH_MONTHS "")
                                 (nth (Z.to_nat (z' - 1)) SPANISH_MONTHS ""))
                          (z =? z'))
                     (multiples 1 1 12))
                1 12 eq_refl m Hm) as H.
  cbv beta in H. rewrite forallb_forall in H.
  specialize (H m'). rewrite Heq, String.eqb_refl in H. cbn [implb] in H.
  apply Z.eqb_eq. apply H. apply In_multiples.
  exists (Z.to_nat (m' - 1)). split; lia.
Qed.

(** ** Further properties of the script *)



(** X2. On every valid date [end_of_year] returns 31 December of the same
    year: a valid date, not before the given one nor before any other date
    of that year, and its own end of year. *)
Theorem end_of_year_last_day :
  forall d,
    valid_date d = true ->
    exists e,
      end_of_year d = Ok e
      /\ valid_date e = true
      /\ year e = year d /\ month e = 12 /\ day e = 31
      /\ datetime.leb d e = true
      /\ (forall d', valid_date d' = true -> year d' = year d ->
                     datetime.leb d' e = true)
      /\ toordinal d <= toordinal e
      /\ end_of_year e = Ok e.
Proof.
  intros d Hv. pose proof (valid_date_bounds d Hv) as (Hy & Hm & Hd).
  exists (mk_date (year d) 12 31).
  assert (He : valid_date (mk_date (year d) 12 31) = true).
  { apply valid_date_intro; cbn [year month day]; try lia.
    unfold _days_in_month. tables. lia. }
  split; [apply end_of_year_ok; exact Hv|]. split; [exact He|].
  repeat (split; [reflexivity|]).
  split; [apply leb_end_of_year; exact Hv|]. split.
  - intros d' Hv' Hy'. rewrite <- Hy'. apply leb_end_of_year. exact Hv'.
  - split.
    + pose proof (days_left_pos d Hv) as Hp. unfold days_left in Hp. lia.
    + apply (end_of_year_ok (mk_date (year d) 12 31) He).
Qed.

Lemma end_of_year_last_day_witness :
  exists e, end_of_year (mk_date 2024 2 29) = Ok e /\ toordinal (mk_date 2024 2 29) <= toordinal e.
Proof.
  destruct (end_of_year_last_day (mk_date 2024 2 29) eq_refl)
    as (e & He & _ & _ & _ & _ & _ & _ & Hle & _).
  exists e. split; [exact He | exact Hle].
Defined.

(** X3. In every run, every finished page shows its header, the Spanish
    date of its day, and after it the numeral of its place among the pages
    when page numbers are switched on; with page numbers switched off the
    header is the only text of the page. *)
Theorem page_texts :
  forall host fuel output_path start_date start spacing size numbered
         top_margin st i p,
    start_of host start_date st = (Ok start, st) ->
    valid_date start = true ->
    nth_error
      (pages (snd (build_agenda_pdf host fuel output_path start_date spacing
                     size numbered top_margin st))) i = Some p ->
    texts p
    = spanish_date (Nat.iter i next_day start)
      :: (if numbered then [py_str (1 + Z.of_nat i)] else []).
Proof.
  intros host fuel output_path start_date start spacing size numbered
    top_margin st i p Hstart Hv Hp.
  destruct (build_agenda_pdf_page host fuel output_path start_date start
              spacing size numbered top_margin st i p Hstart Hv Hp) as [_ ->].
  apply texts_page_ops.
Qed.

Lemma page_texts_witness :
  exists p,
    nth_error
      (pages (snd (build_agenda_pdf linux_host 40 "Agenda_2025.pdf"
                     (Some (mk_date 2025 12 30)) 20 40 false 100
                     initial_state))) 1 = Some p
    /\ texts p = ["Miércoles 31 Diciembre 2025"].
Proof.
  assert (H : exists p,
             nth_error
               (pages (snd (build_agenda_pdf linux_host 40 "Agenda_2025.pdf"
                              (Some (mk_date 2025 12 30)) 20 40 false 100
                              initial_state))) 1 = Some p)
    by (vm_compute; eexists; reflexivity).
  destruct H as [p Hp]. exists p. split; [exact Hp|].
  exact (page_texts linux_host 40 "Agenda_2025.pdf" (Some (mk_date 2025 12 30))
           (mk_date 2025 12 30) 20 40 false 100 initial_state 1 p eq_refl
           eq_refl Hp).
Defined.



(** X5. A run that returns has saved the finished pages of its canvas
    under the output path, has left no page open, and has printed the one
    line "[DONE] Agenda saved to <path>": the host has written the file and
    printed the line.  A run that is still running has saved nothing and
    printed nothing.  A run that raises has printed nothing, and the file
    is as it was unless the exception is that of the failed write, which
    may leave other content in the file, or that of the failed print,
    which comes after the save. *)
Theorem build_agenda_pdf_reports :
  forall host fuel output_path start_date start spacing size numbered
         top_margin st,
    start_of host start_date st = (Ok start, st) ->
    valid_date start = true ->
    (fst (build_agenda_pdf host fuel output_path start_date spacing size
            numbered top_margin st) = Ok tt ->
     saved (snd (build_agenda_pdf host fuel output_path start_date spacing
                   size numbered top_margin st))
     = Some (output_path,
              pages (snd (build_agenda_pdf host fuel output_path start_date
                            spacing size numbered top_margin st)))
     /\ page (snd (build_agenda_pdf host fuel output_path start_date spacing
                     size numbered top_margin st)) = []
     /\ stdout (snd (build_agenda_pdf host fuel output_path start_date spacing
                       size numbered top_margin st))
        = (stdout st ++ ["[DONE] Agenda saved to " ++ output_path]%string)%list
     /\ write_pdf host output_path
          (pages (snd (build_agenda_pdf host fuel output_path start_date
                         spacing size numbered top_margin st)))
        = Written
     /\ stdout_write host ("[DONE] Agenda saved to " ++ output_path)%string
        = None)
    /\ (fst (build_agenda_pdf host fuel output_path start_date spacing size
               numbered top_margin st) = OutOfFuel ->
        saved (snd (build_agenda_pdf host fuel output_path start_date spacing
                      size numbered top_margin st)) = saved st
        /\ stdout (snd (build_agenda_pdf host fuel output_path start_date
                          spacing size numbered top_margin st)) = stdout st)
    /\ (forall e,
          fst (build_agenda_pdf host fuel output_path start_date spacing size
                 numbered top_margin st) = Raise e ->
          stdout (snd (build_agenda_pdf host fuel output_path start_date
                         spacing size numbered top_margin st)) = stdout st
          /\ (saved (snd (build_agenda_pdf host fuel output_path start_date
                            spacing size numbered top_margin st)) = saved st
              \/ (exists content,
                     write_pdf host output_path
                       (pages (snd (build_agenda_pdf host fuel output_path
                                      start_date spacing size numbered
                                      top_margin st)))
                     = WriteFailed e (Some content)
                     /\ saved (snd (build_agenda_pdf host fuel output_path
                                      start_date spacing size numbered
                                      top_margin st))
                        = Some (output_path, content))
              \/ (write_pdf host output_path
                    (pages (snd (build_agenda_pdf host fuel output_path
                                   start_date spacing size numbered
                                   top_margin st)))
                  = Written
                  /\ stdout_write host
                       ("[DONE] Agenda saved to " ++ output_path)%string
                     = Some e
                  /\ saved (snd (build_agenda_pdf host fuel output_path
                                   start_date spacing size numbered
                                   top_margin st))
                     = Some (output_path,
                              pages (snd (build_agenda_pdf host fuel
                                            output_path start_date spacing
                                            size numbered top_margin
                                            st)))))).
Proof.
  intros host fuel output_path start_date start spacing size numbered
    top_margin st Hstart Hv.
  rewrite (build_agenda_pdf_start host fuel output_path start_date start)
    by exact Hstart.
  destruct (build_agenda_pdf_any host fuel output_path start spacing size
              numbered top_margin st Hv)
    as (m & _ & Hpages & Hok & _ & Hrunning).
  split; [|split].
  - intros H. destruct (Hok H) as (_ & _ & Hsaved & Hpage & Hout & Hw & Hpr).
    rewrite Hpages. repeat split; assumption.
  - exact Hrunning.
  - intros e He.
    destruct (build_agenda_pdf_raises host fuel output_path start spacing
                size numbered top_margin st e Hv He) as [Hout Hcases].
    split; [exact Hout|].
    destruct Hcases as [(_ & _ & Hsaved)
                       | [(leftover & Hpg & Hw & Hsaved)
                         | (Hpg & Hw & Hpr & Hsaved)]].
    + left. exact Hsaved.
    + destruct leftover as [content|]; [|left; exact Hsaved].
      right. left. exists content. rewrite Hpg. split; assumption.
    + right. right. rewrite Hpg. repeat split; assumption.
Qed.

Lemma build_agenda_pdf_reports_witness :
  stdout (snd (build_agenda_pdf linux_host 40 "Agenda_2025.pdf"
                 (Some (mk_date 2025 12 31)) 20 40 true 100 initial_state))
  = ["[DONE] Agenda saved to Agenda_2025.pdf"]
  /\ saved (snd (build_agenda_pdf full_disk_host 40 "Agenda_2025.pdf"
                   (Some (mk_date 2025 12 31)) 20 40 true 100 initial_state))
     = Some ("Agenda_2025.pdf", [])
  /\ stdout (snd (build_agenda_pdf full_disk_host 40 "Agenda_2025.pdf"
                    (Some (mk_date 2025 12 31)) 20 40 true 100 initial_state))
     = [].
Proof.
  assert (Hok : fst (build_agenda_pdf linux_host 40 "Agenda_2025.pdf"
                       (Some (mk_date 2025 12 31)) 20 40 true 100
                       initial_state) = Ok tt)
    by (vm_compute; reflexivity).
  assert (Hfail : fst (build_agenda_pdf full_disk_host 40 "Agenda_2025.pdf"
                         (Some (mk_date 2025 12 31)) 20 40 true 100
                         initial_state) = Raise OSError)
    by (vm_compute; reflexivity).
  destruct (build_agenda_pdf_reports linux_host 40 "Agenda_2025.pdf"
              (Some (mk_date 2025 12 31)) (mk_date 2025 12 31) 20 40 true 100
              initial_state eq_refl eq_refl) as [Hdone _].
  destruct (build_agenda_pdf_reports full_disk_host 40 "Agenda_2025.pdf"
              (Some (mk_date 2025 12 31)) (mk_date 2025 12 31) 20 40 true 100
              initial_state eq_refl eq_refl) as (_ & _ & Hraise).
  destruct (Hdone Hok) as (_ & _ & Hout & _).
  destruct (Hraise OSError Hfail) as [Hquiet Hsaved].
  split; [exact Hout|]. split; [|exact Hquiet].
  destruct Hsaved as [Hs | [(content & Hw & Hs) | (Hw & _)]].
  - vm_compute in Hs. discriminate.
  - cbn [write_pdf full_disk_host] in Hw. injection Hw as <-. exact Hs.
  - cbn [write_pdf full_disk_host] in Hw. discriminate.
Defined.

(** X6. From every valid start date before the year 9999, with a positive
    spacing, a top margin that has a float and enough fuel, on a host that
    writes the document and prints the line, the run returns and the saved
    document has one page for each day from the start date to 31 December
    of its year: one page from 31 December, and 365 or 366 pages from
    1 January as the year is a common or a leap year. *)
Theorem agenda_page_count :
  forall host fuel output_path start spacing size numbered top_margin st,
    valid_date start = true ->
    year start <> 9999 ->
    0 < spacing ->
    margin_in_range top_margin ->
    (agenda_fuel spacing top_margin start <= fuel)%nat ->
    write_pdf host output_path
      (agenda_pages host (resolved_font host) spacing size numbered
         top_margin 1 start (Z.to_nat (days_left start))) = Written ->
    stdout_write host ("[DONE] Agenda saved to " ++ output_path)%string
    = None ->
    fst (build_agenda_pdf host fuel output_path (Some start) spacing size
           numbered top_margin st) = Ok tt
    /\ exists document,
         saved (snd (build_agenda_pdf host fuel output_path (Some start)
                       spacing size numbered top_margin st))
         = Some (output_path, document)
         /\ document
            = pages (snd (build_agenda_pdf host fuel output_path (Some start)
                            spacing size numbered top_margin st))
         /\ Z.of_nat (List.length document)
            = toordinal (mk_date (year start) 12 31) - toordinal start + 1
         /\ (month start = 12 -> day start = 31 ->
             List.length document = 1%nat)
         /\ (month start = 1 -> day start = 1 ->
             List.length document
             = if _is_leap (year start) then 366%nat else 365%nat).
Proof.
  intros host fuel output_path start spacing size numbered top_margin st
    Hv Hy Hs Hm Hf Hw Hp.
  destruct (build_agenda_pdf_page_count host fuel output_path start spacing
              size numbered top_margin st Hv Hy Hs Hm Hf Hw Hp)
    as (Hok & Hsaved & Hlen).
  destruct (build_agenda_pdf_run host fuel output_path start spacing size
              numbered top_margin st Hv Hs Hm Hf) as [Hpages _].
  split; [exact Hok|]. eexists. split; [exact Hsaved|].
  split; [symmetry; exact Hpages|].
  split; [exact Hlen|]. destruct start as [y m d]. cbn [year month day] in *.
  split; intros -> ->; rewrite agenda_pages_length.
  - rewrite days_left_last. reflexivity.
  - rewrite days_left_first. destruct (_is_leap y); reflexivity.
Qed.

Lemma agenda_page_count_witness :
  exists document,
    saved (snd (build_agenda_pdf linux_host 368 "Agenda_2024.pdf"
                  (Some (mk_date 2024 1 1)) 20 40 true 100 initial_state))
    = Some ("Agenda_2024.pdf", document)
    /\ List.length document = 366%nat.
Proof.
  assert (Hf : (agenda_fuel 20 100 (mk_date 2024 1 1) <= 368)%nat)
    by (vm_compute; lia).
  destruct (agenda_page_count linux_host 368 "Agenda_2024.pdf"
              (mk_date 2024 1 1) 20 40 true 100 initial_state eq_refl
              ltac:(discriminate) eq_refl (conj eq_refl eq_refl) Hf eq_refl
              eq_refl)
    as (_ & document & Hsaved & _ & _ & _ & Hfirst).
  exists document. split; [exact Hsaved | exact (Hfirst eq_refl eq_refl)].
Defined.

(** X7. The exceptions a run from a valid start date raises: the
    [OverflowError] of a top margin that has no float, at line 101 or at
    line 112; the [OverflowError] of the step past 9999-12-31; what the
    host raises when it fails to write the document; and what it raises
    when it fails to print the line, after the document is written.  No
    other exception is raised: the font of the run is one the canvas
    knows, and the header of every day is found in the tables. *)
Theorem build_agenda_pdf_exceptions :
  forall host fuel output_path start_date start spacing size numbered
         top_margin st e,
    start_of host start_date st = (Ok start, st) ->
    valid_date start = true ->
    fst (build_agenda_pdf host fuel output_path start_date spacing size
           numbered top_margin st) = Raise e ->
    (e = OverflowError
     /\ (~ margin_in_range top_margin
         \/ (margin_in_range top_margin /\ year start = 9999)))
    \/ (exists leftover,
           write_pdf host output_path
             (pages (snd (build_agenda_pdf host fuel output_path start_date
                            spacing size numbered top_margin st)))
           = WriteFailed e leftover)
    \/ (write_pdf host output_path
          (pages (snd (build_agenda_pdf host fuel output_path start_date
                         spacing size numbered top_margin st)))
        = Written
        /\ stdout_write host ("[DONE] Agenda saved to " ++ output_path)%string
           = Some e).
Proof.
  intros host fuel output_path start_date start spacing size numbered
    top_margin st e Hstart Hv.
  rewrite (build_agenda_pdf_start host fuel output_path start_date start)
    by exact Hstart.
  intros He.
  destruct (build_agenda_pdf_raises host fuel output_path start spacing size
              numbered top_margin st e Hv He)
    as [_ [(Hover & Hwhy & _)
          | [(leftover & Hpg & Hw & _) | (Hpg & Hw & Hpr & _)]]].
  - left. split; assumption.
  - right. left. exists leftover. rewrite Hpg. exact Hw.
  - right. right. rewrite Hpg. split; assumption.
Qed.

Lemma build_agenda_pdf_exceptions_witness :
  fst (build_agenda_pdf bare_host 40 "Agenda_9999.pdf"
         (Some (mk_date 9999 12 30)) 20 40 true 100 initial_state)
  = Raise OverflowError
  /\ fst (build_agenda_pdf read_only_host 40 "Agenda_2025.pdf" None 20 40 true
            100 initial_state)
     = Raise OSError
  /\ (exists leftover,
         write_pdf read_only_host "Agenda_2025.pdf"
           (pages (snd (build_agenda_pdf read_only_host 40 "Agenda_2025.pdf"
                          None 20 40 true 100 initial_state)))
         = WriteFailed OSError leftover)
  /\ fst (build_agenda_pdf closed_stdout_host 40 "Agenda_2025.pdf" None 20 40
            true 100 initial_state)
     = Raise OSError
  /\ stdout_write closed_stdout_host "[DONE] Agenda saved to Agenda_2025.pdf"
     = Some OSError.
Proof.
  assert (H : exists e,
             fst (build_agenda_pdf bare_host 40 "Agenda_9999.pdf"
                    (Some (mk_date 9999 12 30)) 20 40 true 100 initial_state)
             = Raise e)
    by (vm_compute; eexists; reflexivity).
  destruct H as [e He].
  assert (Hro : fst (build_agenda_pdf read_only_host 40 "Agenda_2025.pdf" None
                       20 40 true 100 initial_state) = Raise OSError)
    by (vm_compute; reflexivity).
  assert (Hcl : fst (build_agenda_pdf closed_stdout_host 40 "Agenda_2025.pdf"
                       None 20 40 true 100 initial_state) = Raise OSError)
    by (vm_compute; reflexivity).
  split; [|split; [exact Hro|split; [|split; [exact Hcl|]]]].
  - destruct (build_agenda_pdf_exceptions bare_host 40 "Agenda_9999.pdf"
                (Some (mk_date 9999 12 30)) (mk_date 9999 12 30) 20 40 true
                100 initial_state e eq_refl eq_refl He)
      as [[-> _] | [[leftover Hw] | [_ Hpr]]].
    + exact He.
    + cbn [write_pdf bare_host] in Hw. discriminate.
    + cbn [stdout_write bare_host] in Hpr. discriminate.
  - destruct (build_agenda_pdf_exceptions read_only_host 40 "Agenda_2025.pdf"
                None (mk_date 2025 12 30) 20 40 true 100 initial_state OSError
                eq_refl eq_refl Hro)
      as [[Habs _] | [Hw | [Hw _]]].
    + discriminate.
    + exact Hw.
    + cbn [write_pdf read_only_host] in Hw. discriminate.
  - destruct (build_agenda_pdf_exceptions closed_stdout_host 40
                "Agenda_2025.pdf" None (mk_date 2025 12 30) 20 40 true 100
                initial_state OSError eq_refl eq_refl Hcl)
      as [[Habs _] | [[leftover Hw] | [_ Hpr]]].
    + discriminate.
    + cbn [write_pdf closed_stdout_host] in Hw. discriminate.
    + exact Hpr.
Defined.

(** The last day that is left is 31 December. *)
Lemma last_day_left d n :
  valid_date d = true -> days_left d = Z.of_nat (S n) ->
  Nat.iter n next_day d = mk_date (year d) 12 31.
Proof.
  intros Hv Hl. destruct (days_later d n Hv) as (Hvn & Hyn & Hon); [lia|].
  assert (Hone : days_left (Nat.iter n next_day d) = 1).
  { unfold days_left in *. rewrite Hyn, Hon. lia. }
  destruct (days_left_one _ Hvn Hone) as [Hm Hd].
  destruct (Nat.iter n next_day d) as [y m dd]. cbn [year month day] in *.
  congruence.
Qed.

(** X8. A run that returns has drawn the pages of the start date's year
    only: its first page is headed by the start date, its last page by
    31 December of that year, and every page in between by a valid date of
    the same year. *)
Theorem agenda_ends_on_31_december :
  forall host fuel output_path start_date start spacing size numbered
         top_margin st,
    start_of host start_date st = (Ok start, st) ->
    valid_date start = true ->
    fst (build_agenda_pdf host fuel output_path start_date spacing size
           numbered top_margin st) = Ok tt ->
    exists first last others,
      pages (snd (build_agenda_pdf host fuel output_path start_date spacing
                    size numbered top_margin st))
      = (others ++ [last])%list
      /\ nth_error
           (pages (snd (build_agenda_pdf host fuel output_path start_date
                          spacing size numbered top_margin st))) 0
         = Some first
      /\ hd_error (texts first) = Some (spanish_date start)
      /\ hd_error (texts last)
         = Some (spanish_date (mk_date (year start) 12 31))
      /\ forall i p,
           nth_error
             (pages (snd (build_agenda_pdf host fuel output_path start_date
                            spacing size numbered top_margin st))) i
           = Some p ->
           exists d,
             valid_date d = true /\ year d = year start
             /\ toordinal d = toordinal start + Z.of_nat i
             /\ hd_error (texts p) = Some (spanish_date d).
Proof.
  intros host fuel output_path start_date start spacing size numbered
    top_margin st Hstart Hv Hok.
  pose proof (days_left_pos start Hv) as Hpos.
  destruct (build_agenda_pdf_pages host fuel output_path start_date start
              spacing size numbered top_margin st Hstart Hv)
    as (m & _ & Hpages & Hall).
  specialize (Hall Hok).
  destruct m as [|m]; [lia|].
  assert (Hl : days_left start = Z.of_nat (S m)) by lia.
  assert (Hlen : List.length
                   (pages (snd (build_agenda_pdf host fuel output_path
                                  start_date spacing size numbered top_margin
                                  st))) = S m)
    by (rewrite Hpages; apply agenda_pages_length).
  assert (Hlast : nth_error
                    (pages (snd (build_agenda_pdf host fuel output_path
                                   start_date spacing size numbered top_margin
                                   st))) m
                  = Some (page_ops host (resolved_font host) spacing size
                            numbered top_margin (1 + Z.of_nat m)
                            (mk_date (year start) 12 31))).
  { rewrite Hpages, agenda_pages_nth by lia.
    rewrite (last_day_left start m Hv Hl). reflexivity. }
  destruct (nth_error_split _ _ Hlast) as (others & rest & Heq & Hlo).
  assert (rest = []).
  { rewrite Heq, length_app in Hlen. cbn [List.length] in Hlen.
    destruct rest; [reflexivity | cbn [List.length] in Hlen; lia]. }
  subst rest.
  exists (page_ops host (resolved_font host) spacing size numbered top_margin
            1 start),
         (page_ops host (resolved_font host) spacing size numbered top_margin
            (1 + Z.of_nat m) (mk_date (year start) 12 31)),
         others.
  split; [exact Heq|]. split.
  { rewrite Hpages. reflexivity. }
  rewrite !texts_page_ops. split; [reflexivity|]. split; [reflexivity|].
  intros i p Hp.
  destruct (build_agenda_pdf_page host fuel output_path start_date start
              spacing size numbered top_margin st i p Hstart Hv Hp)
    as [Hi ->].
  destruct (days_later start i Hv Hi) as (Hvi & Hyi & Hoi).
  exists (Nat.iter i next_day start). rewrite texts_page_ops.
  repeat split; assumption.
Qed.

Lemma agenda_ends_on_31_december_witness :
  exists last others,
    pages (snd (build_agenda_pdf linux_host 40 "Agenda_2025.pdf"
                  (Some (mk_date 2025 12 29)) 20 40 true 100 initial_state))
    = (others ++ [last])%list
    /\ hd_error (texts last) = Some "Miércoles 31 Diciembre 2025".
Proof.
  assert (Hf : (agenda_fuel 20 100 (mk_date 2025 12 29) <= 40)%nat)
    by (vm_compute; lia).
  destruct (build_agenda_pdf_page_count linux_host 40 "Agenda_2025.pdf"
              (mk_date 2025 12 29) 20 40 true 100 initial_state eq_refl
              ltac:(discriminate) eq_refl (conj eq_refl eq_refl) Hf eq_refl
              eq_refl) as [Hok _].
  destruct (agenda_ends_on_31_december linux_host 40 "Agenda_2025.pdf"
              (Some (mk_date 2025 12 29)) (mk_date 2025 12 29) 20 40 true 100
              initial_state eq_refl eq_refl Hok)
    as (first & last & others & Heq & _ & _ & Hlast & _).
  exists last, others. split; [exact Heq | exact Hlast].
Defined.

(** X9. The script run directly: when today's date is found and is
    before the year 9999, on a host that writes the document and prints
    the line, the run returns, prints its line, and saves one page per day
    from today to 31 December, always under the name "Agenda_2025.pdf",
    whatever the year of today. *)
Theorem main_saves_agenda :
  forall host fuel today st,
    today_europe_paris host st = (Ok today, st) ->
    valid_date today = true ->
    year today <> 9999 ->
    (agenda_fuel 20 100 today <= fuel)%nat ->
    write_pdf host "Agenda_2025.pdf"
      (agenda_pages host (resolved_font host) 20 40 true 100 1 today
         (Z.to_nat (days_left today))) = Written ->
    stdout_write host "[DONE] Agenda saved to Agenda_2025.pdf" = None ->
    fst (main host fuel st) = Ok tt
    /\ stdout (snd (main host fuel st))
       = (stdout st ++ ["[DONE] Agenda saved to Agenda_2025.pdf"])%list
    /\ exists document,
         saved (snd (main host fuel st)) = Some ("Agenda_2025.pdf", document)
         /\ Z.of_nat (List.length document) = days_left today
         /\ forall i p,
              nth_error document i = Some p ->
              texts p = [spanish_date (Nat.iter i next_day today);
                         py_str (1 + Z.of_nat i)].
Proof.
  intros host fuel today st Htoday Hv Hy Hf Hw Hpr. unfold main.
  assert (Hstart : start_of host None st = (Ok today, st)) by exact Htoday.
  rewrite (build_agenda_pdf_start host fuel "Agenda_2025.pdf" None today)
    by exact Hstart.
  destruct (build_agenda_pdf_run host fuel "Agenda_2025.pdf" today 20 40 true
              100 st Hv eq_refl (conj eq_refl eq_refl) Hf) as [_ Hrun].
  apply Z.eqb_neq in Hy. rewrite Hy, Hw in Hrun.
  change (done_line "Agenda_2025.pdf")
    with "[DONE] Agenda saved to Agenda_2025.pdf" in Hrun.
  rewrite Hpr in Hrun. destruct Hrun as (Hsaved & Hok & Hout).
  split; [exact Hok|]. split; [exact Hout|].
  eexists. split; [exact Hsaved|].
  pose proof (days_left_pos today Hv) as Hpos.
  split; [rewrite agenda_pages_length; lia|].
  intros i p Hp.
  assert (Hi : (i < Z.to_nat (days_left today))%nat).
  { rewrite <- (agenda_pages_length host (resolved_font host) 20 40 true 100 1
                  today (Z.to_nat (days_left today))).
    apply nth_error_Some. congruence. }
  rewrite agenda_pages_nth in Hp by exact Hi. injection Hp as <-.
  apply texts_page_ops.
Qed.

Lemma main_saves_agenda_witness :
  fst (main old_python_host 130 initial_state) = Ok tt
  /\ exists document,
       saved (snd (main old_python_host 130 initial_state))
       = Some ("Agenda_2025.pdf", document)
       /\ Z.of_nat (List.length document) = 126.
Proof.
  assert (Hf : (agenda_fuel 20 100 (mk_date 2025 8 28) <= 130)%nat)
    by (vm_compute; lia).
  destruct (main_saves_agenda old_python_host 130 (mk_date 2025 8 28)
              initial_state eq_refl eq_refl ltac:(discriminate) Hf eq_refl
              eq_refl)
    as (Hok & _ & document & Hsaved & Hlen & _).
  split; [exact Hok|]. exists document. split; [exact Hsaved | exact Hlen].
Defined.

(** X10. With the default start date on a host whose [zoneinfo] module
    is imported but has no Europe/Paris zone, every run raises
    [ZoneInfoNotFoundError] at once: no font is registered, no canvas is
    made, nothing is saved or printed. *)
Theorem build_agenda_pdf_zone_missing :
  forall host zone_info fuel output_path spacing size numbered top_margin st,
    ZoneInfo host = Some zone_info ->
    zone_info "Europe/Paris" = None ->
    build_agenda_pdf host fuel output_path None spacing size numbered
      top_margin st
    = (Raise ZoneInfoNotFoundError, st).
Proof.
  intros host zone_info fuel output_path spacing size numbered top_margin st
    Hz Hkey.
  unfold build_agenda_pdf. unfold bind at 1. unfold today_europe_paris.
  rewrite Hz, Hkey. reflexivity.
Qed.

Lemma build_agenda_pdf_zone_missing_witness :
  main bare_host 400 initial_state = (Raise ZoneInfoNotFoundError, initial_state).
Proof.
  exact (build_agenda_pdf_zone_missing bare_host (fun _ => None) 400
           "Agenda_2025.pdf" 20 40 true 100 initial_state eq_refl eq_refl).
Defined.

Lemma never_raises_ret {A : Type} (a : A) : never_raises (ret a).
Proof. intros st e. discriminate. Qed.

Lemma never_raises_emit o : never_raises (canvas.emit o).
Proof. intros st e. discriminate. Qed.

Lemma never_raises_bind {A B : Type} (m : M A) (k : A -> M B) :
  never_raises m -> (forall a, never_raises (k a)) -> never_raises (bind m k).
Proof.
  intros Hm Hk st e. unfold bind. specialize (Hm st).
  destruct (m st) as [[a | e' |] st']; cbn [fst] in *.
  - apply Hk.
  - exfalso. apply (Hm e'). reflexivity.
  - discriminate.
Qed.

Lemma never_raises_while {T : Type} fuel (cond : T -> bool) (body : T -> M T) :
  (forall s, never_raises (body s)) ->
  forall s, never_raises (while fuel cond body s).
Proof.
  intros Hb. induction fuel as [|fuel IH]; intros s; cbn [while].
  - intros st e. discriminate.
  - destruct (cond s); [|apply never_raises_ret].
    apply never_raises_bind; [apply Hb | exact IH].
Qed.

Lemma raises_only_never {A : Type} (P : exn -> Prop) (m : M A) :
  never_raises m -> raises_only P m.
Proof. intros Hm st e He. exfalso. exact (Hm st e He). Qed.

Lemma raises_only_bind {A B : Type} (P : exn -> Prop) (m : M A)
    (k : A -> M B) :
  raises_only P m -> (forall a, raises_only P (k a)) ->
  raises_only P (bind m k).
Proof.
  intros Hm Hk st e. unfold bind. specialize (Hm st).
  destruct (m st) as [[a | e' |] st']; cbn [fst] in *.
  - apply Hk.
  - intros He. injection He as <-. apply Hm. reflexivity.
  - discriminate.
Qed.

Lemma float_of_int_raises n :
  raises_only
    (fun e => e = OverflowError /\ float_max_int <= Z.abs n)
    (lift (float_of_int n)).
Proof.
  intros st e. unfold lift.
  destruct (Z.lt_ge_cases (Z.abs n) float_max_int) as [H | H].
  - rewrite float_of_int_ok by assumption. discriminate.
  - rewrite float_of_int_overflow by assumption. cbn [fst].
    intros He. injection He as <-. split; [reflexivity | exact H].
Qed.

Lemma vertical_lines_never_raises fuel page_w page_h spacing :
  never_raises (vertical_lines fuel page_w page_h spacing).
Proof.
  unfold vertical_lines. apply never_raises_while. intros x.
  apply never_raises_bind; [apply never_raises_emit|].
  intros _. apply never_raises_ret.
Qed.

Lemma horizontal_lines_never_raises fuel page_w stop_y spacing :
  never_raises (horizontal_lines fuel page_w stop_y spacing).
Proof.
  unfold horizontal_lines. apply never_raises_while. intros y.
  apply never_raises_bind; [apply never_raises_emit|].
  intros _. apply never_raises_ret.
Qed.

(** [draw_grid] raises nothing but the [OverflowError] of a top margin
    that has no float. *)
Lemma draw_grid_raises fuel page_w page_h spacing top_margin :
  raises_only
    (fun e => e = OverflowError /\ float_max_int <= Z.abs top_margin)
    (draw_grid fuel page_w page_h spacing top_margin).
Proof.
  unfold draw_grid.
  apply raises_only_bind;
    [apply raises_only_never; apply never_raises_emit | intros _].
  apply raises_only_bind;
    [apply raises_only_never; apply never_raises_emit | intros _].
  apply raises_only_bind;
    [apply raises_only_never; apply vertical_lines_never_raises | intros _].
  apply raises_only_bind; [apply float_of_int_raises | intros margin].
  apply raises_only_bind;
    [apply raises_only_never; apply horizontal_lines_never_raises | intros _].
  apply raises_only_never. apply never_raises_ret.
Qed.

Lemma drawn_on_emit p0 o :
  texts [o] = [] -> keeps (drawn_on p0) (canvas.emit o).
Proof.
  intros Ho st (ops & Hp & Ht). exists (ops ++ [o])%list.
  cbn [snd canvas.emit page canvas.set_page]. unfold canvas.emit.
  cbn [snd page canvas.set_page]. rewrite Hp, <- app_assoc.
  split; [reflexivity|]. rewrite texts_app, Ht, Ho. reflexivity.
Qed.

Lemma draw_grid_drawn_on p0 fuel page_w page_h spacing top_margin :
  keeps (drawn_on p0) (draw_grid fuel page_w page_h spacing top_margin).
Proof.
  unfold draw_grid, vertical_lines, horizontal_lines.
  repeat first
    [ apply keeps_bind; [|intros ?]
    | apply keeps_while; intros ?
    | apply drawn_on_emit; reflexivity
    | apply keeps_lift
    | apply keeps_ret ].
Qed.

(** X11. Whatever its arguments and however long it runs, [draw_grid]
    only adds to the page being drawn, lines and pen settings but no text:
    what was on the page stays, and the finished pages, the fonts, the
    saved file and the printed lines are as before.  It raises nothing but
    [OverflowError], and that only for a top margin that has no float: for
    a top margin that has one it raises no exception. *)
Theorem draw_grid_only_draws :
  forall fuel page_w page_h spacing top_margin st,
    (forall e,
        fst (draw_grid fuel page_w page_h spacing top_margin st) = Raise e ->
        e = OverflowError /\ float_max_int <= Z.abs top_margin)
    /\ (Z.abs top_margin < float_max_int ->
        forall e,
          fst (draw_grid fuel page_w page_h spacing top_margin st) <> Raise e)
    /\ (exists ops,
           page (snd (draw_grid fuel page_w page_h spacing top_margin st))
           = (page st ++ ops)%list
           /\ texts ops = [])
    /\ pages (snd (draw_grid fuel page_w page_h spacing top_margin st))
       = pages st
    /\ fonts (snd (draw_grid fuel page_w page_h spacing top_margin st))
       = fonts st
    /\ saved (snd (draw_grid fuel page_w page_h spacing top_margin st))
       = saved st
    /\ stdout (snd (draw_grid fuel page_w page_h spacing top_margin st))
       = stdout st.
Proof.
  intros fuel page_w page_h spacing top_margin st.
  split; [intros e; apply draw_grid_raises|].
  split.
  { intros Hm e He.
    destruct (draw_grid_raises fuel page_w page_h spacing top_margin st e He)
      as [_ H]. lia. }
  split.
  { apply (draw_grid_drawn_on (page st)). exists [].
    rewrite app_nil_r. split; reflexivity. }
  destruct (draw_grid_frame fuel page_w page_h spacing top_margin st)
    as (H1 & H2 & H3 & _).
  repeat (split; [assumption|]).
  exact (keeps_draw_grid (stdout st) fuel page_w page_h spacing top_margin st
           eq_refl).
Qed.

Lemma draw_grid_only_draws_witness :
  (forall e,
      fst (draw_grid 40 (fst A4) (snd A4) 20 100 initial_state) <> Raise e)
  /\ fst (draw_grid 40 (fst A4) (snd A4) 20 (2 ^ 1024) initial_state)
     = Raise OverflowError.
Proof.
  destruct (draw_grid_only_draws 40 (fst A4) (snd A4) 20 100 initial_state)
    as (_ & Hnone & _).
  destruct (draw_grid_only_draws 40 (fst A4) (snd A4) 20 (2 ^ 1024)
              initial_state) as (Honly & _).
  split; [exact (Hnone eq_refl)|].
  assert (H : exists e,
             fst (draw_grid 40 (fst A4) (snd A4) 20 (2 ^ 1024) initial_state)
             = Raise e)
    by (vm_compute; eexists; reflexivity).
  destruct H as [e He]. destruct (Honly e He) as [-> _]. exact He.
Defined.

(** X12. [register_readable_font] always returns a name the canvas can
    set.  When a candidate is usable it registers one font and no other,
    the one whose name it returns, a usable candidate's; when none is
    usable it registers nothing, leaves the state as it was, and returns
    the fallback.  It leaves the canvas, the saved file and the printed
    lines as they were. *)
Theorem register_readable_font_registers_one :
  forall host st,
    exists name,
      fst (register_readable_font host st) = Ok name
      /\ canvas.font_known (snd (register_readable_font host st)) name = true
      /\ ((exists c, In c FONT_CANDIDATES /\ usable host c = true) ->
          fonts (snd (register_readable_font host st)) = name :: fonts st
          /\ exists c,
               In c FONT_CANDIDATES /\ usable host c = true /\ name = fst c)
      /\ ((forall c, In c FONT_CANDIDATES -> usable host c = false) ->
          snd (register_readable_font host st) = st
          /\ name = FALLBACK_FONT)
      /\ filename (snd (register_readable_font host st)) = filename st
      /\ page (snd (register_readable_font host st)) = page st
      /\ pages (snd (register_readable_font host st)) = pages st
      /\ saved (snd (register_readable_font host st)) = saved st
      /\ stdout (snd (register_readable_font host st)) = stdout st.
Proof.
  intros host st. exists (resolved_font host).
  split; [apply register_readable_font_returns|].
  split; [apply resolved_font_known|].
  rewrite register_readable_font_spec. unfold resolved_font.
  pose proof (find_first (usable host) FONT_CANDIDATES) as Hfind.
  destruct (find (usable host) FONT_CANDIDATES) as [c|]; cbn [snd].
  - destruct Hfind as (before & after & Heq & _ & Hc).
    assert (Hin : In c FONT_CANDIDATES)
      by (rewrite Heq; apply in_or_app; right; left; reflexivity).
    split.
    { intros _. split; [reflexivity|]. exists c. repeat split; assumption. }
    split.
    { intros Hnone. rewrite (Hnone c Hin) in Hc. discriminate. }
    repeat split.
  - split.
    { intros (c & Hin & Hc). rewrite (Hfind c Hin) in Hc. discriminate. }
    split; [intros _; split; reflexivity|]. repeat split.
Qed.

Lemma register_readable_font_registers_one_witness :
  fonts (snd (register_readable_font broken_dejavu_host initial_state))
  = "FreeSans" :: fonts initial_state
  /\ snd (register_readable_font bare_host initial_state) = initial_state.
Proof.
  destruct (register_readable_font_registers_one broken_dejavu_host
              initial_state) as (name & Hname & _ & Hsome & _).
  destruct (register_readable_font_registers_one bare_host initial_state)
    as (name' & _ & _ & _ & Hnone & _).
  split.
  - vm_compute in Hname. injection Hname as <-.
    apply Hsome.
    exists ("FreeSans", "/usr/share/fonts/truetype/freefont/FreeSans.ttf").
    split; [right; left; reflexivity | reflexivity].
  - apply Hnone. intros c _. reflexivity.
Defined.





(** X14. [format_date_spanish] gives different valid dates different
    headers: the date can be read back from its header. *)
Theorem format_date_spanish_injective :
  forall d1 d2,
    valid_date d1 = true ->
    valid_date d2 = true ->
    format_date_spanish d1 = format_date_spanish d2 ->
    d1 = d2.
Proof.
  intros d1 d2 Hv1 Hv2 Heq.
  rewrite !format_date_spanish_ok in Heq by assumption.
  injection Heq as Heq. unfold spanish_date in Heq.
  pose proof (valid_date_bounds d1 Hv1) as (Hy1 & Hm1 & Hd1).
  pose proof (valid_date_bounds d2 Hv2) as (Hy2 & Hm2 & Hd2).
  pose proof (days_in_month_bounds (year d1) (month d1) Hm1) as Hb1.
  pose proof (days_in_month_bounds (year d2) (month d2) Hm2) as Hb2.
  apply split_at_space in Heq;
    [| apply weekday_name_no_space; apply weekday_range
     | apply weekday_name_no_space; apply weekday_range ].
  destruct Heq as [_ Heq].
  apply split_at_space in Heq;
    [| apply day_numeral_no_space; lia | apply day_numeral_no_space; lia ].
  destruct Heq as [Hday Heq].
  apply split_at_space in Heq;
    [| apply month_name_no_space; lia | apply month_name_no_space; lia ].
  destruct Heq as [Hmonth Hyear].
  apply py_str_inj in Hday. apply py_str_inj in Hyear.
  apply month_name_inj in Hmonth; [|lia|lia].
  destruct d1, d2. cbn [year month day] in *. congruence.
Qed.

Lemma format_date_spanish_injective_witness :
  (format_date_spanish (mk_date 2024 2 29)
   = format_date_spanish (mk_date 2024 2 29)
   /\ mk_date 2024 2 29 = mk_date 2024 2 29)
  /\ format_date_spanish (mk_date 2024 2 29)
     <> format_date_spanish (mk_date 2025 2 28).
Proof.
  split.
  - split; [reflexivity|].
    exact (format_date_spanish_injective (mk_date 2024 2 29)
             (mk_date 2024 2 29) eq_refl eq_refl eq_refl).
  - intros H.
    pose proof (format_date_spanish_injective (mk_date 2024 2 29)
                  (mk_date 2025 2 28) eq_refl eq_refl H) as Heq.
    discriminate Heq.
Defined.
